(** * playwright-ctrf-json-report: the report builder of [src/generate-report.ts]

    A shallow embedding of the class [GenerateCtrfReport] and the properties
    of its transformation pass: status normalisation, summary counters,
    suite paths, attachments (screenshot, browser metadata), failure details
    and the output file name.

    Conventions of the embedding.
    - A JavaScript [number] that the reporter only counts with or copies is
      an integer of [Z] (counters, milliseconds, retry numbers).
    - A JavaScript string is a [string]: the sequence of its UTF-8 bytes.  A
      [Buffer] is a [string] as well (its bytes), so [toString('utf-8')] is
      the identity on well-formed input.
    - A property that may be [undefined] (or a key that may be missing from
      an object) is an [option]; [None] is [undefined].
    - The reporter object is a record that every method takes and returns;
      a method that can throw returns an [Outcome]. *)

From Stdlib Require Import ZArith String Ascii List Bool Lia.
From stdpp Require Import base option list strings gmap.

Set Warnings "-register-all".
Local Open Scope Z_scope.
Local Open Scope string_scope.

(** ** What the host (Playwright) hands to the reporter *)

Module TestError.
Record t : Type := mk {
  message : option string;
  stack : option string
}.
End TestError.

Module Attachment.
(** [body] is the attachment's [Buffer], absent for attachments that only
    carry a [path]. *)
Record t : Type := mk {
  name : string;
  contentType : string;
  body : option string
}.
End Attachment.

Module TestResult.
(** [startTime] is the [Date] of the attempt as epoch milliseconds. *)
Record t : Type := mk {
  status : string;
  duration : Z;
  startTime : Z;
  retry : Z;
  attachments : list Attachment.t;
  error : option TestError.t
}.
End TestResult.

Module SuiteRef.
(** A suite as it is seen from below, through [parent] links: its title
    and the suite above it ([None] at the root).  The chain is finite, as
    it is in every suite tree the host builds. *)
Inductive t : Type := mk {
  title : string;
  parent : option t
}.
End SuiteRef.

Module TestCase.
Record t : Type := mk {
  title : string;
  parent : SuiteRef.t;
  location_file : string;
  results : list TestResult.t
}.
End TestCase.

Module Suite.
(** A suite as it is seen from above: its own test cases and its child
    suites, in declaration order. *)
Inductive t : Type := mk {
  title : string;
  tests : list TestCase.t;
  suites : list t
}.
End Suite.

(** ** The CTRF report ([types/ctrf]) *)

Inductive CtrfTestState : Type :=
  | passed | failed | skipped | pending | other.

(** The string a [CtrfTestState] is at run time; it is the key used for the
    dynamic lookup in the summary object. *)
Definition CtrfTestState_key (s : CtrfTestState) : string :=
  match s with
  | passed => "passed"
  | failed => "failed"
  | skipped => "skipped"
  | pending => "pending"
  | other => "other"
  end.

Module CtrfTest.
(** The three required fields, then the optional ones in the order in
    which [updateCtrfTestResultsFromTestResult] assigns them. *)
Record t : Type := mk {
  name : string;
  status : CtrfTestState;
  duration : Z;
  start : option Z;
  stop : option Z;
  message : option string;
  trace : option string;
  rawStatus : option string;
  tags : option (list string);
  type : option string;
  filePath : option string;
  retry : option Z;
  flake : option bool;
  screenshot : option string;
  suite : option string;
  browser : option string
}.
End CtrfTest.

Module CtrfEnvironment.
Record t : Type := mk {
  appName : option string;
  appVersion : option string;
  osPlatform : option string;
  osRelease : option string;
  osVersion : option string;
  buildName : option string;
  buildNumber : option string
}.
Definition empty : t := mk None None None None None None None.
End CtrfEnvironment.

Module CtrfReport.
(** [results.summary] is kept as the object it is: a finite map from
    property names to numbers, because the reporter looks a counter up by
    a computed name. *)
Record t : Type := mk {
  tool_name : string;
  summary : gmap string Z;
  tests : list CtrfTest.t;
  environment : option CtrfEnvironment.t
}.
End CtrfReport.

Module ReporterConfigOptions.
Record t : Type := mk {
  outputFile : option string;
  outputDir : option string;
  minimal : option bool;
  screenshot : option bool;
  testType : option string;
  appName : option string;
  appVersion : option string;
  osPlatform : option string;
  osRelease : option string;
  osVersion : option string;
  buildName : option string;
  buildNumber : option string
}.
(** [Partial<ReporterConfigOptions>] with nothing set. *)
Definition none : t :=
  mk None None None None None None None None None None None None.
End ReporterConfigOptions.

(** ** Operations of the JavaScript library that the reporter calls *)

(** [a ?? b] *)
Definition nullish {A : Type} (a : option A) (b : A) : A :=
  match a with Some x => x | None => b end.
Infix "??" := nullish (at level 45, left associativity).

(** [String.prototype.endsWith]: the last [length suffix] characters of
    [s] are [suffix]. *)
Definition endsWith (s suffix : string) : bool :=
  let n := String.length s in
  let m := String.length suffix in
  (m <=? n)%nat && String.eqb (String.substring (n - m) m s) suffix.

(** [Array.prototype.join] on an array of strings. *)
Fixpoint join (sep : string) (parts : list string) : string :=
  match parts with
  | [] => ""
  | [p] => p
  | p :: rest => p +:+ sep +:+ join sep rest
  end.

(** [x !== undefined] *)
Definition isDefined {A : Type} (x : option A) : bool :=
  match x with Some _ => true | None => false end.

(** [l[i]] for a computed index: [undefined] outside [0 .. length-1]. *)
Definition index {A : Type} (l : list A) (i : Z) : option A :=
  if (i <? 0)%Z then None else l !! Z.to_nat i.

(** ** Pure methods of [GenerateCtrfReport] *)

Definition reporterName : string := "playwright-ctrf-json-reporter".
Definition defaultOutputFile : string := "ctrf-report.json".
Definition defaultOutputDir : string := "ctrf".

Definition mapPlaywrightStatusToCtrf (testStatus : string) : CtrfTestState :=
  if String.eqb testStatus "passed" then passed
  else if String.eqb testStatus "failed" then failed
  else if String.eqb testStatus "timedOut" then failed
  else if String.eqb testStatus "interrupted" then failed
  else if String.eqb testStatus "skipped" then skipped
  else if String.eqb testStatus "pending" then pending
  else other.

(** [setFilename] assigns [reporterConfigOptions.outputFile]. *)
Definition normalizedFilename (filename : string) : string :=
  if endsWith filename ".json" then filename else filename +:+ ".json".

Definition setFilename (filename : string)
    (opts : ReporterConfigOptions.t) : ReporterConfigOptions.t :=
  let 'ReporterConfigOptions.mk _ dir mini shot ty an av op orl ov bn bnum := opts in
  ReporterConfigOptions.mk (Some (normalizedFilename filename))
    dir mini shot ty an av op orl ov bn bnum.

(** [updateStart] and [calculateStopTime]: whole epoch seconds. *)
Definition updateStart (startTime : Z) : Z := startTime / 1000.

Definition calculateStopTime (startTime duration : Z) : Z :=
  (startTime + duration) / 1000.

(** The loop of [buildSuitePath], entered with a defined [currentSuite]
    ([test.parent] is never [undefined]): the title goes to the front of
    [pathComponents] ([unshift]) unless it is empty, then the loop goes on
    with the parent and ends when there is none. *)
Fixpoint buildSuitePath_loop (currentSuite : SuiteRef.t)
    (pathComponents : list string) : list string :=
  match currentSuite with
  | SuiteRef.mk title parent =>
      let pathComponents :=
        if negb (String.eqb title "") then title :: pathComponents
        else pathComponents in
      match parent with
      | Some above => buildSuitePath_loop above pathComponents
      | None => pathComponents
      end
  end.

Definition buildSuitePath (test : TestCase.t) : string :=
  join " > " (buildSuitePath_loop (TestCase.parent test) []).

(** [countSuites]: [count] starts at 0 and only ever receives the counts of
    the child suites. *)
Fixpoint countSuites (suite : Suite.t) : Z :=
  fold_left (fun count childSuite => count + countSuites childSuite)
    (Suite.suites suite) 0.

(** ** [Buffer.prototype.toString('base64')] *)

Definition base64_alphabet : string :=
  "ABCDEFGHIJKLMNOPQRSTUVWXYZabcdefghijklmnopqrstuvwxyz0123456789+/".

Definition base64_digit (sextet : N) : ascii :=
  match String.get (N.to_nat sextet) base64_alphabet with
  | Some c => c
  | None => "="%char
  end.

(** Three bytes give four digits; a last group of one or two bytes is
    padded with [=]. *)
Fixpoint base64_bytes (bytes : list ascii) : string :=
  let d (n : N) := base64_digit (n mod 64)%N in
  match bytes with
  | [] => ""
  | [a] =>
      let n := (N_of_ascii a * 65536)%N in
      String (d (n / 262144)%N) (String (d (n / 4096)%N) "==")
  | [a; b] =>
      let n := (N_of_ascii a * 65536 + N_of_ascii b * 256)%N in
      String (d (n / 262144)%N) (String (d (n / 4096)%N)
        (String (d (n / 64)%N) "="))
  | a :: b :: c :: rest =>
      let n := (N_of_ascii a * 65536 + N_of_ascii b * 256 + N_of_ascii c)%N in
      String (d (n / 262144)%N) (String (d (n / 4096)%N)
        (String (d (n / 64)%N) (String (d n) (base64_bytes rest))))
  end.

Definition toString_base64 (buffer : string) : string :=
  base64_bytes (list_ascii_of_string buffer).

(** [toString('utf-8')] of a buffer, by the convention on strings. *)
Definition toString_utf8 (buffer : string) : string := buffer.

(** ** Methods that only read an attempt *)

(** [Array.prototype.find] is [List.find]: the first element, in list
    order, that satisfies the predicate. *)
Definition isScreenshot (attachment : Attachment.t) : bool :=
  String.eqb (Attachment.name attachment) "screenshot"
  && (String.eqb (Attachment.contentType attachment) "image/jpeg"
      || String.eqb (Attachment.contentType attachment) "image/png").

Definition extractScreenshotBase64 (testResult : TestResult.t) : option string :=
  match List.find isScreenshot (TestResult.attachments testResult) with
  | Some screenshotAttachment =>
      match Attachment.body screenshotAttachment with
      | Some body => Some (toString_base64 body)
      | None => None
      end
  | None => None
  end.

(** The [Partial<CtrfTest>] that [extractFailureDetails] returns has at
    most the keys [message] and [trace]. *)
Module FailureDetails.
Record t : Type := mk {
  message : option string;
  trace : option string
}.
End FailureDetails.

Definition extractFailureDetails (testResult : TestResult.t) : FailureDetails.t :=
  match String.eqb (TestResult.status testResult) "failed",
        TestResult.error testResult with
  | true, Some error =>
      FailureDetails.mk (TestError.message error) (TestError.stack error)
  | _, _ => FailureDetails.mk None None
  end.

(** [\w] of a regular expression without the unicode flag. *)
Definition isWordChar (c : ascii) : bool :=
  let n := nat_of_ascii c in
  ((48 <=? n) && (n <=? 57) || (65 <=? n) && (n <=? 90)
   || (97 <=? n) && (n <=? 122) || (n =? 95))%nat.

(** [title.match(/@\w+/g)]: the matches from left to right.  [current] is
    the match under way, from its [@]; it counts once a word character has
    followed. *)
Fixpoint matchTags (chars : list ascii) (current : option string) : list string :=
  let flush :=
    match current with
    | Some token => if (1 <? String.length token)%nat then [token] else []
    | None => []
    end in
  let restart (c : ascii) := if Ascii.eqb c "@" then Some "@" else None in
  match chars with
  | [] => flush
  | c :: rest =>
      match current with
      | Some token =>
          if isWordChar c then matchTags rest (Some (token +:+ String c ""))
          else flush ++ matchTags rest (restart c)
      | None => matchTags rest (restart c)
      end
  end.

Definition extractTagsFromTitle (title : string) : list string :=
  matchTags (list_ascii_of_string title) None.

(** ** JSON values, as [JSON.parse] returns them *)

(** A number is kept as the text that JavaScript prints for it. *)
Inductive JsValue : Type :=
  | JNull
  | JBool (b : bool)
  | JNumber (text : string)
  | JString (s : string)
  | JArray (items : list JsValue)
  | JObject (props : list (string * JsValue)).

(** The own property [key] of an object from [JSON.parse]; with a repeated
    key the last occurrence is the one kept. *)
Fixpoint ownProperty (props : list (string * JsValue)) (key : string)
    : option JsValue :=
  match props with
  | [] => None
  | (k, v) :: rest =>
      match ownProperty rest key with
      | Some later => Some later
      | None => if String.eqb k key then Some v else None
      end
  end.

(** [value?.key] for [key] one of [name] and [version]: no prototype of a
    JSON value defines these, so only an object's own property is found,
    and [null?.key] is [undefined]. *)
Definition optionalGet (value : JsValue) (key : string) : option JsValue :=
  match value with
  | JObject props => ownProperty props key
  | _ => None
  end.

(** [ToString], as a template literal applies it to a substitution.
    [None] stands for the [TypeError] of an object that cannot be
    converted: one with an own [toString] property, which coming from JSON
    is not callable.  An array is its elements joined with a comma, [null]
    elements giving the empty string. *)
Fixpoint ToString (value : JsValue) : option string :=
  match value with
  | JNull => Some "null"
  | JBool true => Some "true"
  | JBool false => Some "false"
  | JNumber text => Some text
  | JString s => Some s
  | JArray items =>
      let element (v : JsValue) :=
        match v with JNull => Some "" | _ => ToString v end in
      option_map (join ",")
        ((fix each (l : list JsValue) : option (list string) :=
            match l with
            | [] => Some []
            | v :: rest =>
                match element v, each rest with
                | Some s, Some ss => Some (s :: ss)
                | _, _ => None
                end
            end) items)
  | JObject props =>
      match ownProperty props "toString" with
      | Some _ => None
      | None => Some "[object Object]"
      end
  end.

(** [`${value}`] where [value] may be [undefined]. *)
Definition templateToString (value : option JsValue) : option string :=
  match value with
  | None => Some "undefined"
  | Some v => ToString v
  end.

(** ** The host: library calls whose result the reporter does not control *)

Inductive JsError : Type :=
  | TypeError (message : string)
  | HostError (message : string).

Module Host.
(** - [JSON_parse text]: the parsed value, or the message of the
      [SyntaxError] it throws;
    - [path_join dir file]: [path.join(dir, file)];
    - [existsSync path], and [mkdirSync path] with the error it may
      throw;
    - [writeFileSync path report]: writing the serialised report
      ([JSON.stringify(report, null, 2)] and a newline) to [path], with
      [String(error)] of the error it may throw. *)
Record t : Type := mk {
  JSON_parse : string -> JsValue + string;
  path_join : string -> string -> string;
  existsSync : string -> bool;
  mkdirSync : string -> option JsError;
  writeFileSync : string -> CtrfReport.t -> option string
}.
End Host.

(** ** The reporter object *)

Inductive ConsoleLine : Type :=
  | console_log (line : string)
  | console_error (line : string).

Module Reporter.
(** The fields of [GenerateCtrfReport], then what it has printed and the
    reports it has written with their paths, oldest first. *)
Record t : Type := mk {
  ctrfReport : CtrfReport.t;
  ctrfEnvironment : CtrfEnvironment.t;
  reporterConfigOptions : ReporterConfigOptions.t;
  suite : option Suite.t;
  startTime : option Z;
  console : list ConsoleLine;
  files : list (string * CtrfReport.t)
}.

Definition with_ctrfReport (r : CtrfReport.t) (this : t) : t :=
  mk r (ctrfEnvironment this) (reporterConfigOptions this) (suite this)
    (startTime this) (console this) (files this).
Definition with_ctrfEnvironment (e : CtrfEnvironment.t) (this : t) : t :=
  mk (ctrfReport this) e (reporterConfigOptions this) (suite this)
    (startTime this) (console this) (files this).
Definition with_reporterConfigOptions (o : ReporterConfigOptions.t) (this : t) : t :=
  mk (ctrfReport this) (ctrfEnvironment this) o (suite this)
    (startTime this) (console this) (files this).
Definition with_suite (s : option Suite.t) (this : t) : t :=
  mk (ctrfReport this) (ctrfEnvironment this) (reporterConfigOptions this) s
    (startTime this) (console this) (files this).
Definition with_startTime (s : option Z) (this : t) : t :=
  mk (ctrfReport this) (ctrfEnvironment this) (reporterConfigOptions this)
    (suite this) s (console this) (files this).
Definition print (line : ConsoleLine) (this : t) : t :=
  mk (ctrfReport this) (ctrfEnvironment this) (reporterConfigOptions this)
    (suite this) (startTime this) (console this ++ [line]) (files this).
Definition printAll (lines : list ConsoleLine) (this : t) : t :=
  mk (ctrfReport this) (ctrfEnvironment this) (reporterConfigOptions this)
    (suite this) (startTime this) (console this ++ lines) (files this).
Definition write (path : string) (data : CtrfReport.t) (this : t) : t :=
  mk (ctrfReport this) (ctrfEnvironment this) (reporterConfigOptions this)
    (suite this) (startTime this) (console this) (files this ++ [(path, data)]).

Definition summary (this : t) : gmap string Z :=
  CtrfReport.summary (ctrfReport this).
Definition tests (this : t) : list CtrfTest.t :=
  CtrfReport.tests (ctrfReport this).

Definition with_summary (s : gmap string Z) (this : t) : t :=
  with_ctrfReport
    (CtrfReport.mk (CtrfReport.tool_name (ctrfReport this)) s
       (CtrfReport.tests (ctrfReport this))
       (CtrfReport.environment (ctrfReport this))) this.
Definition with_tests (l : list CtrfTest.t) (this : t) : t :=
  with_ctrfReport
    (CtrfReport.mk (CtrfReport.tool_name (ctrfReport this))
       (CtrfReport.summary (ctrfReport this)) l
       (CtrfReport.environment (ctrfReport this))) this.
Definition with_environment (e : option CtrfEnvironment.t) (this : t) : t :=
  with_ctrfReport
    (CtrfReport.mk (CtrfReport.tool_name (ctrfReport this))
       (CtrfReport.summary (ctrfReport this))
       (CtrfReport.tests (ctrfReport this)) e) this.
End Reporter.

(** A method either returns, or throws; both leave the reporter in some
    state. *)
Inductive Outcome (A : Type) : Type :=
  | Returns (result : A) (this : Reporter.t)
  | Throws (e : JsError) (this : Reporter.t).
Arguments Returns {A} result this.
Arguments Throws {A} e this.

Definition Method (A : Type) : Type := Reporter.t -> Outcome A.

Definition ret {A : Type} (a : A) : Method A := fun this => Returns a this.

Definition throw {A : Type} (e : JsError) : Method A := fun this => Throws e this.

Definition bind {A B : Type} (m : Method A) (k : A -> Method B) : Method B :=
  fun this =>
    match m this with
    | Returns a this' => k a this'
    | Throws e this' => Throws e this'
    end.

Notation "'let*' x ':=' m 'in' k" := (bind m (fun x => k))
  (at level 10, x name, m at level 100, k at level 200).
Notation "m ';;;' k" := (bind m (fun _ => k))
  (at level 100, k at level 200, right associativity).

Definition modify (f : Reporter.t -> Reporter.t) : Method unit :=
  fun this => Returns tt (f this).

Definition get {A : Type} (f : Reporter.t -> A) : Method A :=
  fun this => Returns (f this) this.

(** [for (const x of l) body(x)] *)
Definition forOf {A : Type} (body : A -> Method unit) : list A -> Method unit :=
  fix loop (l : list A) : Method unit :=
    match l with
    | [] => ret tt
    | x :: rest => body x ;;; loop rest
    end.

Definition thisAfter {A : Type} (o : Outcome A) : Reporter.t :=
  match o with
  | Returns _ this => this
  | Throws _ this => this
  end.

(** A counter of the summary object, and [summary[key]++].  The constructor
    creates every counter that the reporter increments and nothing deletes
    one, so the reading of a missing key (taken as 0 here) never happens. *)
Definition counter (summary : gmap string Z) (key : string) : Z :=
  default 0 (summary !! key).

Definition increment (key : string) (summary : gmap string Z) : gmap string Z :=
  <[key := counter summary key + 1]> summary.

(** ** The constructor *)

Definition constructor (config : ReporterConfigOptions.t) : Reporter.t :=
  let opt := ReporterConfigOptions.mk
    (Some (ReporterConfigOptions.outputFile config ?? defaultOutputFile))
    (Some (ReporterConfigOptions.outputDir config ?? defaultOutputDir))
    (Some (ReporterConfigOptions.minimal config ?? false))
    (Some (ReporterConfigOptions.screenshot config ?? false))
    (Some (ReporterConfigOptions.testType config ?? "e2e"))
    (ReporterConfigOptions.appName config)
    (ReporterConfigOptions.appVersion config)
    (ReporterConfigOptions.osPlatform config)
    (ReporterConfigOptions.osRelease config)
    (ReporterConfigOptions.osVersion config)
    (ReporterConfigOptions.buildName config)
    (ReporterConfigOptions.buildNumber config) in
  let summary : gmap string Z :=
    <["stop" := 0]> (<["start" := 0]> (<["other" := 0]> (<["skipped" := 0]>
      (<["pending" := 0]> (<["failed" := 0]> (<["passed" := 0]>
        (<["tests" := 0]> ∅))))))) in
  Reporter.mk (CtrfReport.mk "playwright" summary [] None)
    CtrfEnvironment.empty opt None None [] [].

(** ** Methods that change the reporter *)

Definition updateSummaryFromTestResult (testResult : option TestResult.t)
    : Method unit :=
  modify (fun this =>
    Reporter.with_summary (increment "tests" (Reporter.summary this)) this) ;;;
  match testResult with
  | None =>
      throw (TypeError "Cannot read properties of undefined (reading 'status')")
  | Some testResult =>
      let ctrfStatus :=
        CtrfTestState_key (mapPlaywrightStatusToCtrf (TestResult.status testResult)) in
      modify (fun this =>
        let summary := Reporter.summary this in
        match summary !! ctrfStatus with
        | Some _ => Reporter.with_summary (increment ctrfStatus summary) this
        | None => Reporter.with_summary (increment "other" summary) this
        end)
  end.

Definition setEnvironmentDetails (o : ReporterConfigOptions.t) : Method unit :=
  let assign {A : Type} (value : option A) (set : A -> CtrfEnvironment.t -> CtrfEnvironment.t)
      : Method unit :=
    match value with
    | Some v =>
        modify (fun this =>
          Reporter.with_ctrfEnvironment (set v (Reporter.ctrfEnvironment this)) this)
    | None => ret tt
    end in
  assign (ReporterConfigOptions.appName o)
    (fun v '(CtrfEnvironment.mk _ b c d e f g) => CtrfEnvironment.mk (Some v) b c d e f g) ;;;
  assign (ReporterConfigOptions.appVersion o)
    (fun v '(CtrfEnvironment.mk a _ c d e f g) => CtrfEnvironment.mk a (Some v) c d e f g) ;;;
  assign (ReporterConfigOptions.osPlatform o)
    (fun v '(CtrfEnvironment.mk a b _ d e f g) => CtrfEnvironment.mk a b (Some v) d e f g) ;;;
  assign (ReporterConfigOptions.osRelease o)
    (fun v '(CtrfEnvironment.mk a b c _ e f g) => CtrfEnvironment.mk a b c (Some v) e f g) ;;;
  assign (ReporterConfigOptions.osVersion o)
    (fun v '(CtrfEnvironment.mk a b c d _ f g) => CtrfEnvironment.mk a b c d (Some v) f g) ;;;
  assign (ReporterConfigOptions.buildName o)
    (fun v '(CtrfEnvironment.mk a b c d e _ g) => CtrfEnvironment.mk a b c d e (Some v) g) ;;;
  assign (ReporterConfigOptions.buildNumber o)
    (fun v '(CtrfEnvironment.mk a b c d e f _) => CtrfEnvironment.mk a b c d e f (Some v)).

(** [Object.keys(environment).length > 0] *)
Definition hasEnvironmentDetails (environment : CtrfEnvironment.t) : bool :=
  let 'CtrfEnvironment.mk a b c d e f g := environment in
  isDefined a || isDefined b || isDefined c || isDefined d
  || isDefined e || isDefined f || isDefined g.

Section WithHost.
Variable host : Host.t.

Definition isMetadata (attachment : Attachment.t) : bool :=
  String.eqb (Attachment.name attachment) "metadata.json".

(** [extractMetadata]: the value parsed from the body of the first
    attachment named [metadata.json]; [null] when there is no such
    attachment, when it has no body, and when parsing throws, which is
    caught and printed. *)
Definition extractMetadata (testResult : TestResult.t) : Method JsValue :=
  match List.find isMetadata (TestResult.attachments testResult) with
  | Some metadataAttachment =>
      match Attachment.body metadataAttachment with
      | Some body =>
          let metadataRaw := toString_utf8 body in
          match Host.JSON_parse host metadataRaw with
          | inl value => ret value
          | inr message =>
              modify (Reporter.print
                (console_error ("Error parsing browser metadata: " +:+ message))) ;;;
              ret JNull
          end
      | None => ret JNull
      end
  | None => ret JNull
  end.

(** Lines 177-183: the condition calls [extractMetadata] once, and once
    more when the first call shows no [name]; the template literal calls
    it twice again and converts each substitution as it goes. *)
Definition browserOf (testResult : TestResult.t) : Method (option string) :=
  let substitute (value : option JsValue) : Method string :=
    match templateToString value with
    | Some s => ret s
    | None => throw (TypeError "Cannot convert object to primitive value")
    end in
  let* first := extractMetadata testResult in
  let* present :=
    if isDefined (optionalGet first "name") then ret true
    else
      let* second := extractMetadata testResult in
      ret (isDefined (optionalGet second "version")) in
  if (present : bool) then
    let* third := extractMetadata testResult in
    let* name := substitute (optionalGet third "name") in
    let* fourth := extractMetadata testResult in
    let* version := substitute (optionalGet fourth "version") in
    ret (Some (name +:+ " " +:+ version))
  else ret None.

(** [testResult] is what [processTest] found at the end of the results
    list, which may be [undefined]. *)
Definition updateCtrfTestResultsFromTestResult (testCase : TestCase.t)
    (testResult : option TestResult.t) : Method unit :=
  match testResult with
  | None =>
      throw (TypeError "Cannot read properties of undefined (reading 'status')")
  | Some testResult =>
      let name := TestCase.title testCase in
      let status := mapPlaywrightStatusToCtrf (TestResult.status testResult) in
      let duration := TestResult.duration testResult in
      let* options := get Reporter.reporterConfigOptions in
      let* test :=
        match ReporterConfigOptions.minimal options with
        | Some false =>
            let start := updateStart (TestResult.startTime testResult) in
            let stop :=
              calculateStopTime (TestResult.startTime testResult)
                (TestResult.duration testResult) in
            let message := FailureDetails.message (extractFailureDetails testResult) in
            let trace := FailureDetails.trace (extractFailureDetails testResult) in
            let rawStatus := TestResult.status testResult in
            let tags := extractTagsFromTitle (TestCase.title testCase) in
            let type := ReporterConfigOptions.testType options ?? "e2e" in
            let filePath := TestCase.location_file testCase in
            let retry := TestResult.retry testResult in
            let flake :=
              String.eqb (TestResult.status testResult) "passed"
              && (0 <? TestResult.retry testResult)%Z in
            let screenshot :=
              match ReporterConfigOptions.screenshot options with
              | Some true => extractScreenshotBase64 testResult
              | _ => None
              end in
            let suite := buildSuitePath testCase in
            let* browser := browserOf testResult in
            ret (CtrfTest.mk name status duration (Some start) (Some stop)
                   message trace (Some rawStatus) (Some tags) (Some type)
                   (Some filePath) (Some retry) (Some flake) screenshot
                   (Some suite) browser)
        | _ =>
            ret (CtrfTest.mk name status duration None None None None None
                   None None None None None None None None)
        end in
      modify (fun this => Reporter.with_tests (Reporter.tests this ++ [test]) this)
  end.

Definition processTest (testCase : TestCase.t) : Method unit :=
  let results := TestCase.results testCase in
  let latestResult := index results (Z.of_nat (length results) - 1) in
  updateCtrfTestResultsFromTestResult testCase latestResult ;;;
  updateSummaryFromTestResult latestResult.

Fixpoint processSuite (suite : Suite.t) : Method unit :=
  forOf processTest (Suite.tests suite) ;;;
  forOf processSuite (Suite.suites suite).

Definition writeReportToFile (data : CtrfReport.t) : Method unit :=
  let* options := get Reporter.reporterConfigOptions in
  let filePath :=
    Host.path_join host
      (ReporterConfigOptions.outputDir options ?? defaultOutputDir)
      (ReporterConfigOptions.outputFile options ?? defaultOutputFile) in
  match Host.writeFileSync host filePath data with
  | None =>
      modify (Reporter.write filePath data) ;;;
      modify (Reporter.print
        (console_log (reporterName +:+ ": successfully written ctrf json to "
                      +:+ (ReporterConfigOptions.outputFile options ?? "undefined"))))
  | Some error =>
      modify (Reporter.print
        (console_error ("Error writing ctrf json report:, " +:+ error)))
  end.

(** [onBegin(_config, suite)] at the time [now] ([Date.now()]); the
    configuration of the host is not read. *)
Definition onBegin (now : Z) (suite : Suite.t) : Method unit :=
  modify (Reporter.with_suite (Some suite)) ;;;
  modify (Reporter.with_startTime (Some now)) ;;;
  modify (fun this =>
    Reporter.with_summary (<["start" := now]> (Reporter.summary this)) this) ;;;
  let* options := get Reporter.reporterConfigOptions in
  let outputDir := ReporterConfigOptions.outputDir options ?? defaultOutputDir in
  (if negb (Host.existsSync host outputDir) then
     match Host.mkdirSync host outputDir with
     | Some e => throw e
     | None => ret tt
     end
   else ret tt) ;;;
  setEnvironmentDetails options ;;;
  let* environment := get Reporter.ctrfEnvironment in
  (if hasEnvironmentDetails environment then
     modify (Reporter.with_environment (Some environment))
   else ret tt) ;;;
  modify (fun this =>
    Reporter.with_reporterConfigOptions
      (setFilename
         (ReporterConfigOptions.outputFile (Reporter.reporterConfigOptions this)
            ?? defaultOutputFile)
         (Reporter.reporterConfigOptions this)) this).

(** [onEnd()] at the time [now]. *)
Definition onEnd (now : Z) : Method unit :=
  modify (fun this =>
    Reporter.with_summary (<["stop" := now]> (Reporter.summary this)) this) ;;;
  let* suite := get Reporter.suite in
  match suite with
  | Some suite =>
      processSuite suite ;;;
      modify (fun this =>
        Reporter.with_summary
          (<["suites" := countSuites suite]> (Reporter.summary this)) this)
  | None => ret tt
  end ;;;
  let* report := get Reporter.ctrfReport in
  writeReportToFile report.

(** A whole run: construction, [onBegin], [onEnd]. *)
Definition run (config : ReporterConfigOptions.t) (begun ended : Z)
    (suite : Suite.t) : Outcome unit :=
  (onBegin begun suite ;;; onEnd ended) (constructor config).
End WithHost.

(** ** A reference host

    [JSON.parse] on the fragment of JSON without [\u] escapes and with
    integer literals of at most fifteen digits only; on this fragment the
    value is the one JavaScript computes.  The message of a syntax error is
    engine-specific and is a fixed text here.  The file system of this host
    accepts every call. *)
Module Reference.
Definition dquote : ascii := "034"%char.
Definition quoted (s : string) : string :=
  String dquote s +:+ String dquote "".

Definition isWhitespace (c : ascii) : bool :=
  let n := nat_of_ascii c in
  ((n =? 32) || (n =? 9) || (n =? 10) || (n =? 13))%nat.

Definition isDigit (c : ascii) : bool :=
  let n := nat_of_ascii c in ((48 <=? n) && (n <=? 57))%nat.

Fixpoint skipWhitespace (s : list ascii) : list ascii :=
  match s with
  | c :: rest => if isWhitespace c then skipWhitespace rest else s
  | [] => []
  end.

Fixpoint stripPrefix (p s : list ascii) : option (list ascii) :=
  match p, s with
  | [], _ => Some s
  | a :: p', b :: s' => if Ascii.eqb a b then stripPrefix p' s' else None
  | _ :: _, [] => None
  end.

Definition unescape (c : ascii) : option ascii :=
  if Ascii.eqb c dquote then Some dquote
  else if Ascii.eqb c "\" then Some "\"%char
  else if Ascii.eqb c "/" then Some "/"%char
  else if Ascii.eqb c "b" then Some "008"%char
  else if Ascii.eqb c "f" then Some "012"%char
  else if Ascii.eqb c "n" then Some "010"%char
  else if Ascii.eqb c "r" then Some "013"%char
  else if Ascii.eqb c "t" then Some "009"%char
  else None.

(** The characters of a string literal after its opening quote. *)
Fixpoint parseString (s : list ascii) : option (string * list ascii) :=
  match s with
  | [] => None
  | c :: rest =>
      if Ascii.eqb c dquote then Some ("", rest)
      else if Ascii.eqb c "\" then
        match rest with
        | e :: rest' =>
            match unescape e, parseString rest' with
            | Some c', Some (str, r) => Some (String c' str, r)
            | _, _ => None
            end
        | [] => None
        end
      else if (nat_of_ascii c <? 32)%nat then None
      else
        match parseString rest with
        | Some (str, r) => Some (String c str, r)
        | None => None
        end
  end.

Fixpoint takeDigits (s : list ascii) : string * list ascii :=
  match s with
  | c :: rest =>
      if isDigit c then
        let '(ds, r) := takeDigits rest in (String c ds, r)
      else ("", s)
  | [] => ("", [])
  end.

(** An integer literal: an optional minus sign, then [0] or digits that
    do not start with [0].  JavaScript prints [-0] as [0]. *)
Definition parseInteger (s : list ascii) : option (JsValue * list ascii) :=
  let '(negative, s') :=
    match s with
    | c :: rest => if Ascii.eqb c "-" then (true, rest) else (false, s)
    | [] => (false, s)
    end in
  let '(digits, rest) := takeDigits s' in
  let continues :=
    match rest with
    | c :: _ => Ascii.eqb c "." || Ascii.eqb c "e" || Ascii.eqb c "E"
    | [] => false
    end in
  let wellFormed :=
    match digits with
    | EmptyString => false
    | String d EmptyString => true
    | String d _ => negb (Ascii.eqb d "0")
    end in
  if wellFormed && negb continues && (String.length digits <=? 15)%nat then
    Some (JNumber (if negative && negb (String.eqb digits "0")
                   then String "-" digits else digits), rest)
  else None.

Fixpoint parseValue (fuel : nat) (s : list ascii) {struct fuel}
    : option (JsValue * list ascii) :=
  match fuel with
  | O => None
  | S fuel =>
      let s := skipWhitespace s in
      match stripPrefix (list_ascii_of_string "null") s with
      | Some rest => Some (JNull, rest)
      | None =>
      match stripPrefix (list_ascii_of_string "true") s with
      | Some rest => Some (JBool true, rest)
      | None =>
      match stripPrefix (list_ascii_of_string "false") s with
      | Some rest => Some (JBool false, rest)
      | None =>
      match s with
      | [] => None
      | c :: rest =>
          if Ascii.eqb c dquote then
            match parseString rest with
            | Some (str, r) => Some (JString str, r)
            | None => None
            end
          else if Ascii.eqb c "[" then
            match skipWhitespace rest with
            | c' :: r =>
                if Ascii.eqb c' "]" then Some (JArray [], r)
                else
                  match parseElements fuel rest with
                  | Some (items, r') => Some (JArray items, r')
                  | None => None
                  end
            | [] => None
            end
          else if Ascii.eqb c "{" then
            match skipWhitespace rest with
            | c' :: r =>
                if Ascii.eqb c' "}" then Some (JObject [], r)
                else
                  match parseMembers fuel rest with
                  | Some (props, r') => Some (JObject props, r')
                  | None => None
                  end
            | [] => None
            end
          else parseInteger s
      end end end end
  end
with parseElements (fuel : nat) (s : list ascii) {struct fuel}
    : option (list JsValue * list ascii) :=
  match fuel with
  | O => None
  | S fuel =>
      match parseValue fuel s with
      | Some (v, r) =>
          match skipWhitespace r with
          | c :: r' =>
              if Ascii.eqb c "]" then Some ([v], r')
              else if Ascii.eqb c "," then
                match parseElements fuel r' with
                | Some (vs, r'') => Some (v :: vs, r'')
                | None => None
                end
              else None
          | [] => None
          end
      | None => None
      end
  end
with parseMembers (fuel : nat) (s : list ascii) {struct fuel}
    : option (list (string * JsValue) * list ascii) :=
  match fuel with
  | O => None
  | S fuel =>
      match skipWhitespace s with
      | q :: afterQuote =>
          if Ascii.eqb q dquote then
            match parseString afterQuote with
            | Some (key, r) =>
                match skipWhitespace r with
                | colon :: r0 =>
                    if Ascii.eqb colon ":" then
                      match parseValue fuel r0 with
                      | Some (v, r1) =>
                          match skipWhitespace r1 with
                          | c :: r2 =>
                              if Ascii.eqb c "}" then Some ([(key, v)], r2)
                              else if Ascii.eqb c "," then
                                match parseMembers fuel r2 with
                                | Some (kvs, r3) => Some ((key, v) :: kvs, r3)
                                | None => None
                                end
                              else None
                          | [] => None
                          end
                      | None => None
                      end
                    else None
                | [] => None
                end
            | None => None
            end
          else None
      | [] => None
      end
  end.

Definition JSON_parse (text : string) : JsValue + string :=
  let s := list_ascii_of_string text in
  match parseValue (2 * List.length s + 2) s with
  | Some (v, rest) =>
      match skipWhitespace rest with
      | [] => inl v
      | _ :: _ => inr "Unexpected non-whitespace character after JSON"
      end
  | None => inr "Unexpected token in JSON"
  end.

Definition host : Host.t :=
  Host.mk JSON_parse
    (fun dir file => dir +:+ "/" +:+ file)
    (fun _ => true)
    (fun _ => None)
    (fun _ _ => None).
End Reference.

(** ** Definitions used to state the properties *)

(** The status table of the specification, row by row; a status that has
    no row is [other]. *)
Definition statusTable : list (string * CtrfTestState) :=
  [ ("passed", passed); ("failed", failed); ("timedOut", failed);
    ("interrupted", failed); ("skipped", skipped); ("pending", pending) ].

Definition statusByTable (hostStatus : string) : CtrfTestState :=
  match List.find (fun row => String.eqb hostStatus (fst row)) statusTable with
  | Some row => snd row
  | None => other
  end.

(** The titles met on the way from a suite up to the root, the suite's own
    title first. *)
Fixpoint titlesToRoot (s : SuiteRef.t) : list string :=
  match s with
  | SuiteRef.mk title parent =>
      title :: match parent with
               | Some above => titlesToRoot above
               | None => []
               end
  end.

Definition nonEmpty (s : string) : bool := negb (String.eqb s "").

(** The number of suites below a suite, at any depth. *)
Fixpoint nestedSuites (suite : Suite.t) : Z :=
  fold_right (fun childSuite total => 1 + nestedSuites childSuite + total) 0
    (Suite.suites suite).

(** The test cases that [processSuite] visits, in the order of the visit:
    a suite's own test cases, then those of its child suites. *)
Fixpoint visitedTests (suite : Suite.t) : list TestCase.t :=
  Suite.tests suite ++ flat_map visitedTests (Suite.suites suite).

(** The five buckets of the summary add up to its [tests] counter. *)
Definition balanced (summary : gmap string Z) : Prop :=
  counter summary "tests" =
    counter summary "passed" + counter summary "failed"
    + counter summary "pending" + counter summary "skipped"
    + counter summary "other".

(** The value that [extractMetadata] returns, without its printing. *)
Definition parsedMetadata (host : Host.t) (testResult : TestResult.t) : JsValue :=
  match List.find isMetadata (TestResult.attachments testResult) with
  | Some metadataAttachment =>
      match Attachment.body metadataAttachment with
      | Some body =>
          match Host.JSON_parse host (toString_utf8 body) with
          | inl value => value
          | inr _ => JNull
          end
      | None => JNull
      end
  | None => JNull
  end.

(** The last attachment that is a screenshot, as the documentation of the
    reporter describes the one it includes. *)
Definition lastScreenshot (testResult : TestResult.t) : option Attachment.t :=
  List.find isScreenshot (rev (TestResult.attachments testResult)).

Definition minimalMode (this : Reporter.t) : option bool :=
  ReporterConfigOptions.minimal (Reporter.reporterConfigOptions this).

Definition screenshotMode (this : Reporter.t) : option bool :=
  ReporterConfigOptions.screenshot (Reporter.reporterConfigOptions this).

(** What one call of [extractMetadata] prints. *)
Definition metadataLines (host : Host.t) (testResult : TestResult.t)
    : list ConsoleLine :=
  match List.find isMetadata (TestResult.attachments testResult) with
  | Some metadataAttachment =>
      match Attachment.body metadataAttachment with
      | Some body =>
          match Host.JSON_parse host (toString_utf8 body) with
          | inl _ => []
          | inr message =>
              [console_error ("Error parsing browser metadata: " +:+ message)]
          end
      | None => []
      end
  | None => []
  end.

(** The browser string for a given metadata value: [Some None] when the
    field is left out, [None] when a substitution cannot be converted. *)
Definition browserValue (metadata : JsValue) : option (option string) :=
  if isDefined (optionalGet metadata "name")
     || isDefined (optionalGet metadata "version")
  then
    match templateToString (optionalGet metadata "name"),
          templateToString (optionalGet metadata "version") with
    | Some name, Some version => Some (Some (name +:+ " " +:+ version))
    | _, _ => None
    end
  else Some None.

(** A method keeps a property of the reporter when the property holds after
    it, however it ends, if it held before. *)
Definition keeps {A : Type} (P : Reporter.t -> Prop) (m : Method A) : Prop :=
  forall this, P this -> P (thisAfter (m this)).

(** The last attempt of a test case, when it has one, yields a browser
    string or none, and no conversion error. *)
Definition convertible (host : Host.t) (tc : TestCase.t) : Prop :=
  forall earlier r,
    TestCase.results tc = (earlier ++ [r])%list ->
    browserValue (parsedMetadata host r) <> None.

Definition total (weight : Z) (weights : list Z) : Z :=
  fold_right Z.add weight weights.

(** ** Sample runs *)

Module Examples.
Definition rootRef : SuiteRef.t := SuiteRef.mk "" None.
Definition fileRef : SuiteRef.t := SuiteRef.mk "login.spec.ts" (Some rootRef).

Definition testCase (results : list TestResult.t) : TestCase.t :=
  TestCase.mk "login works @smoke" fileRef "tests/login.spec.ts" results.

(** A root suite that holds one file suite with the given test cases. *)
Definition rootWith (tests : list TestCase.t) : Suite.t :=
  Suite.mk "" [] [Suite.mk "login.spec.ts" tests []].

Definition withScreenshots : ReporterConfigOptions.t :=
  ReporterConfigOptions.mk None None None (Some true) None
    None None None None None None None.

(** An attempt that attached two screenshots, one after the other. *)
Definition twoScreenshots : TestResult.t :=
  TestResult.mk "passed" 1200 1700000000000 0
    [ Attachment.mk "screenshot" "image/png" (Some "first");
      Attachment.mk "screenshot" "image/png" (Some "last") ]
    None.

Definition timeoutError : TestError.t :=
  TestError.mk (Some "Test timeout of 30000ms exceeded.")
    (Some "Error: Test timeout of 30000ms exceeded.").

(** An attempt that ran into the timeout of the host. *)
Definition timedOut : TestResult.t :=
  TestResult.mk "timedOut" 30000 1700000000000 0 [] (Some timeoutError).

Definition assertionError : TestError.t :=
  TestError.mk (Some "expected true, got false")
    (Some "Error: expected true, got false at login.spec.ts:7").

Definition failedAttempt : TestResult.t :=
  TestResult.mk "failed" 800 1700000000000 0 [] (Some assertionError).

Definition passedAttempt : TestResult.t :=
  TestResult.mk "passed" 800 1700000000000 0 [] None.

Definition metadataAttachment (body : string) : Attachment.t :=
  Attachment.mk "metadata.json" "application/json" (Some body).

Definition withMetadata (body : string) : TestResult.t :=
  TestResult.mk "passed" 800 1700000000000 0 [metadataAttachment body] None.

(** The text [{"name":"chromium"}]. *)
Definition nameOnly : string :=
  "{" +:+ Reference.quoted "name" +:+ ":" +:+ Reference.quoted "chromium" +:+ "}".

(** The text [{"name":"chromium","version":"120.0"}]. *)
Definition nameAndVersion : string :=
  "{" +:+ Reference.quoted "name" +:+ ":" +:+ Reference.quoted "chromium"
  +:+ "," +:+ Reference.quoted "version" +:+ ":" +:+ Reference.quoted "120.0"
  +:+ "}".

(** The text [{"name":"chromium","version":120}]. *)
Definition nameAndNumber : string :=
  "{" +:+ Reference.quoted "name" +:+ ":" +:+ Reference.quoted "chromium"
  +:+ "," +:+ Reference.quoted "version" +:+ ":120}".

(** A text that is not JSON. *)
Definition malformed : string := "{name: chromium".

Definition passedOnRetry : TestResult.t :=
  TestResult.mk "passed" 900 1700000001000 1 [] None.

(** Three test cases: one passed, one failed with an error, one passed on
    its second attempt. *)
Definition threeTests : Suite.t :=
  rootWith [ testCase [passedAttempt]; testCase [failedAttempt];
             testCase [failedAttempt; passedOnRetry] ].
End Examples.

(** ** Further definitions used to state properties *)

(** Every character of a string is a word character. *)
Fixpoint wordChars (s : string) : bool :=
  match s with
  | EmptyString => true
  | String c rest => isWordChar c && wordChars rest
  end.

(** A tag: [@] followed by one or more word characters. *)
Definition isTag (s : string) : bool :=
  match s with
  | String c word => Ascii.eqb c "@" && negb (String.eqb word "") && wordChars word
  | EmptyString => false
  end.

(** A record with the three required fields only. *)
Definition bare (test : CtrfTest.t) : Prop :=
  CtrfTest.start test = None /\ CtrfTest.stop test = None
  /\ CtrfTest.message test = None /\ CtrfTest.trace test = None
  /\ CtrfTest.rawStatus test = None /\ CtrfTest.tags test = None
  /\ CtrfTest.type test = None /\ CtrfTest.filePath test = None
  /\ CtrfTest.retry test = None /\ CtrfTest.flake test = None
  /\ CtrfTest.screenshot test = None /\ CtrfTest.suite test = None
  /\ CtrfTest.browser test = None.

(** The environment fields that a configuration supplies. *)
Definition environmentOf (o : ReporterConfigOptions.t) : CtrfEnvironment.t :=
  CtrfEnvironment.mk
    (ReporterConfigOptions.appName o) (ReporterConfigOptions.appVersion o)
    (ReporterConfigOptions.osPlatform o) (ReporterConfigOptions.osRelease o)
    (ReporterConfigOptions.osVersion o) (ReporterConfigOptions.buildName o)
    (ReporterConfigOptions.buildNumber o).

(** An environment with the supplied fields of a configuration written
    over it. *)
Definition overlayEnvironment (o : ReporterConfigOptions.t)
    (e : CtrfEnvironment.t) : CtrfEnvironment.t :=
  let over {A : Type} (new old : option A) : option A :=
    match new with Some v => Some v | None => old end in
  CtrfEnvironment.mk
    (over (ReporterConfigOptions.appName o) (CtrfEnvironment.appName e))
    (over (ReporterConfigOptions.appVersion o) (CtrfEnvironment.appVersion e))
    (over (ReporterConfigOptions.osPlatform o) (CtrfEnvironment.osPlatform e))
    (over (ReporterConfigOptions.osRelease o) (CtrfEnvironment.osRelease e))
    (over (ReporterConfigOptions.osVersion o) (CtrfEnvironment.osVersion e))
    (over (ReporterConfigOptions.buildName o) (CtrfEnvironment.buildName e))
    (over (ReporterConfigOptions.buildNumber o) (CtrfEnvironment.buildNumber e)).

(** The directory and the file name that a configuration leads to. *)
Definition configuredDir (config : ReporterConfigOptions.t) : string :=
  ReporterConfigOptions.outputDir config ?? defaultOutputDir.

Definition configuredFile (config : ReporterConfigOptions.t) : string :=
  normalizedFilename (ReporterConfigOptions.outputFile config ?? defaultOutputFile).

(** What the traversal of the suites leaves alone: everything but the
    summary, the records and the console. *)
Definition frame (this : Reporter.t) :=
  (Reporter.reporterConfigOptions this, Reporter.files this,
   Reporter.suite this, Reporter.startTime this,
   Reporter.ctrfEnvironment this,
   CtrfReport.environment (Reporter.ctrfReport this),
   CtrfReport.tool_name (Reporter.ctrfReport this)).

(** The names of the six counters. *)
Definition isCounterName (key : string) : bool :=
  String.eqb key "tests" || String.eqb key "passed" || String.eqb key "failed"
  || String.eqb key "pending" || String.eqb key "skipped"
  || String.eqb key "other".

Definition CtrfTestState_eqb (a b : CtrfTestState) : bool :=
  String.eqb (CtrfTestState_key a) (CtrfTestState_key b).

(** The normalized status of the last attempt of a test case. *)
Definition lastState (tc : TestCase.t) : option CtrfTestState :=
  option_map (fun r => mapPlaywrightStatusToCtrf (TestResult.status r))
    (last (TestCase.results tc)).

(** 1 for a test case whose last attempt has the given normalized status,
    0 for any other. *)
Definition countsAs (state : CtrfTestState) (tc : TestCase.t) : Z :=
  match lastState tc with
  | Some s => if CtrfTestState_eqb s state then 1 else 0
  | None => 0
  end.

(** A record describes a test case: it has its title, and the normalized
    status and the duration of its last attempt. *)
Definition describes (tc : TestCase.t) (test : CtrfTest.t) : Prop :=
  CtrfTest.name test = TestCase.title tc
  /\ exists earlier r,
       TestCase.results tc = (earlier ++ [r])%list
       /\ CtrfTest.status test = mapPlaywrightStatusToCtrf (TestResult.status r)
       /\ CtrfTest.duration test = TestResult.duration r.

(** The five buckets are properties of the summary. *)
Definition hasBuckets (summary : gmap string Z) : Prop :=
  forall state, is_Some (summary !! CtrfTestState_key state).

(** The reporter that [onBegin] leaves when it returns, called on a fresh
    reporter. *)
Definition begun (config : ReporterConfigOptions.t) (now : Z) (suite : Suite.t)
    : Reporter.t :=
  let fresh := constructor config in
  Reporter.mk
    (CtrfReport.mk "playwright" (<["start" := now]> (Reporter.summary fresh)) []
       (if hasEnvironmentDetails (environmentOf config)
        then Some (environmentOf config) else None))
    (environmentOf config)
    (setFilename
       (ReporterConfigOptions.outputFile config ?? defaultOutputFile)
       (Reporter.reporterConfigOptions fresh))
    (Some suite) (Some now) [] [].

(** ** Induction on suites *)

Lemma SuiteRef_induction (P : SuiteRef.t -> Prop) :
  (forall title, P (SuiteRef.mk title None)) ->
  (forall title above, P above -> P (SuiteRef.mk title (Some above))) ->
  forall s, P s.
Proof.
  intros Hroot Hstep. fix IH 1. intros [title [above|]].
  - apply Hstep, IH.
  - apply Hroot.
Qed.

Lemma Suite_induction (P : Suite.t -> Prop) :
  (forall title tests suites, Forall P suites -> P (Suite.mk title tests suites)) ->
  forall s, P s.
Proof.
  intros Hnode. fix IH 1. intros [title tests suites]. apply Hnode.
  induction suites as [|child rest IHrest]; constructor.
  - apply IH.
  - apply IHrest.
Qed.

(** ** Status normalisation *)

(** C6: status normalisation depends on the host status string alone and
    follows the table: [passed] gives passed; [failed], [timedOut] and
    [interrupted] give failed; [skipped] gives skipped; [pending] gives
    pending; a string with no row in the table gives other, and only such a
    string does. *)
Theorem mapPlaywrightStatusToCtrf_follows_table (testStatus : string) :
  mapPlaywrightStatusToCtrf testStatus = statusByTable testStatus
  /\ (mapPlaywrightStatusToCtrf testStatus = other
      <-> ~ In testStatus (map fst statusTable)).
Proof.
  unfold mapPlaywrightStatusToCtrf, statusByTable, statusTable.
  cbn [List.find fst snd map In].
  destruct (String.eqb testStatus "passed") eqn:E1;
  [|destruct (String.eqb testStatus "failed") eqn:E2;
  [|destruct (String.eqb testStatus "timedOut") eqn:E3;
  [|destruct (String.eqb testStatus "interrupted") eqn:E4;
  [|destruct (String.eqb testStatus "skipped") eqn:E5;
  [|destruct (String.eqb testStatus "pending") eqn:E6]]]]];
  (split; [reflexivity|]);
  repeat match goal with
  | H : String.eqb _ _ = true |- _ => apply String.eqb_eq in H
  | H : String.eqb _ _ = false |- _ => apply String.eqb_neq in H
  end;
  try (split; [discriminate | intros Hnot; exfalso; apply Hnot; subst testStatus; tauto]).
  split; [|reflexivity]. intros _ Hin. intuition congruence.
Qed.

(** ** Suite paths *)

Lemma buildSuitePath_loop_titles (s : SuiteRef.t) (pathComponents : list string) :
  buildSuitePath_loop s pathComponents
  = (List.filter nonEmpty (rev (titlesToRoot s)) ++ pathComponents)%list.
Proof.
  revert pathComponents.
  induction s as [title|title above IH] using SuiteRef_induction;
    intros pathComponents; cbn [buildSuitePath_loop titlesToRoot rev].
  - cbn [app List.filter]. unfold nonEmpty. destruct (negb (title =? "")%string); reflexivity.
  - rewrite IH, List.filter_app. cbn [List.filter]. unfold nonEmpty.
    rewrite <- app_assoc.
    destruct (negb (title =? "")%string); reflexivity.
Qed.

(** C7: the suite path of a test case is made of the titles found by
    following the parent links from its own suite up to the root, without
    the empty ones, put outermost first and joined with [" > "]; suites
    titled A, then an untitled one, then B around a test give ["A > B"]. *)
Theorem buildSuitePath_outermost_first :
  (forall test : TestCase.t,
     buildSuitePath test
     = join " > " (List.filter nonEmpty (rev (titlesToRoot (TestCase.parent test)))))
  /\ (forall title file results,
        buildSuitePath
          (TestCase.mk title
             (SuiteRef.mk "B" (Some (SuiteRef.mk "" (Some (SuiteRef.mk "A" None)))))
             file results)
        = "A > B").
Proof.
  split.
  - intros test. unfold buildSuitePath.
    rewrite buildSuitePath_loop_titles. now rewrite app_nil_r.
  - intros title file results. reflexivity.
Qed.

(** ** The output file name *)

Lemma append_cons (c : ascii) (a b : string) :
  String c a +:+ b = String c (a +:+ b).
Proof. reflexivity. Qed.

Lemma append_empty (b : string) : "" +:+ b = b.
Proof. reflexivity. Qed.

Lemma length_append (a b : string) :
  String.length (a +:+ b) = (String.length a + String.length b)%nat.
Proof.
  induction a as [|c a IH].
  - reflexivity.
  - rewrite append_cons. cbn [String.length Nat.add]. now rewrite IH.
Qed.

Lemma substring_whole (b : string) : String.substring 0 (String.length b) b = b.
Proof. induction b as [|d b IHb]; cbn; [reflexivity | now rewrite IHb]. Qed.

Lemma substring_after_prefix (a b : string) :
  String.substring (String.length a) (String.length b) (a +:+ b) = b.
Proof.
  induction a as [|c a IH].
  - rewrite append_empty. apply substring_whole.
  - rewrite append_cons. exact IH.
Qed.

Lemma endsWith_append (a b : string) : endsWith (a +:+ b) b = true.
Proof.
  unfold endsWith. rewrite length_append.
  replace (String.length a + String.length b - String.length b)%nat
    with (String.length a) by lia.
  rewrite substring_after_prefix, String.eqb_refl, andb_true_r.
  apply Nat.leb_le. lia.
Qed.

Lemma endsWith_normalizedFilename (filename : string) :
  endsWith (normalizedFilename filename) ".json" = true.
Proof.
  unfold normalizedFilename.
  destruct (endsWith filename ".json") eqn:E; [exact E | apply endsWith_append].
Qed.

(** C8: [setFilename] stores the name unchanged when it ends in [.json]
    and with [.json] appended when it does not; the stored name always ends
    in [.json], storing the stored name again changes nothing, [custom]
    becomes [custom.json] and [custom.json] stays. *)
Theorem setFilename_normalizes (filename : string) (options : ReporterConfigOptions.t) :
  let stored := normalizedFilename filename in
  ReporterConfigOptions.outputFile (setFilename filename options) = Some stored
  /\ (endsWith filename ".json" = true /\ stored = filename
      \/ endsWith filename ".json" = false /\ stored = filename +:+ ".json")
  /\ endsWith stored ".json" = true
  /\ setFilename stored (setFilename filename options) = setFilename filename options
  /\ ReporterConfigOptions.outputFile (setFilename "custom" options) = Some "custom.json"
  /\ ReporterConfigOptions.outputFile (setFilename "custom.json" options)
     = Some "custom.json".
Proof.
  cbn zeta. repeat split.
  - destruct options; reflexivity.
  - unfold normalizedFilename.
    destruct (endsWith filename ".json"); [left | right]; split; reflexivity.
  - apply endsWith_normalizedFilename.
  - destruct options; cbn [setFilename]. f_equal. f_equal.
    unfold normalizedFilename at 1.
    now rewrite endsWith_normalizedFilename.
  - destruct options; reflexivity.
  - destruct options; reflexivity.
Qed.

(** ** The suites counter *)

Lemma countSuites_zero (suite : Suite.t) : countSuites suite = 0.
Proof.
  induction suite as [title tests suites IH] using Suite_induction.
  cbn [countSuites Suite.suites].
  assert (Hfold : forall start,
    fold_left (fun count childSuite => count + countSuites childSuite) suites start
    = start).
  { induction IH as [|child rest Hchild _ IHrest]; intros start; cbn [fold_left].
    - reflexivity.
    - rewrite Hchild, IHrest. lia. }
  apply Hfold.
Qed.

(** ** Reasoning about methods *)

Lemma keeps_ret {A : Type} (P : Reporter.t -> Prop) (a : A) : keeps P (ret a).
Proof. intros this H. exact H. Qed.

Lemma keeps_throw {A : Type} (P : Reporter.t -> Prop) (e : JsError) :
  keeps P (throw (A := A) e).
Proof. intros this H. exact H. Qed.

Lemma keeps_get {A : Type} (P : Reporter.t -> Prop) (f : Reporter.t -> A) :
  keeps P (get f).
Proof. intros this H. exact H. Qed.

Lemma keeps_modify (P : Reporter.t -> Prop) (f : Reporter.t -> Reporter.t) :
  (forall this, P this -> P (f this)) -> keeps P (modify f).
Proof. intros Hf this H. apply Hf, H. Qed.

Lemma keeps_bind {A B : Type} (P : Reporter.t -> Prop)
    (m : Method A) (k : A -> Method B) :
  keeps P m -> (forall a, keeps P (k a)) -> keeps P (bind m k).
Proof.
  intros Hm Hk this H. unfold bind.
  specialize (Hm this H). destruct (m this) as [a this'|e this']; cbn in *.
  - apply Hk, Hm.
  - exact Hm.
Qed.

Lemma keeps_forOf {A : Type} (P : Reporter.t -> Prop)
    (body : A -> Method unit) (l : list A) :
  Forall (fun x => keeps P (body x)) l -> keeps P (forOf body l).
Proof.
  induction 1 as [|x rest Hx _ IH]; cbn [forOf].
  - apply keeps_ret.
  - apply keeps_bind; [exact Hx | intros _; exact IH].
Qed.

Lemma keeps_if {A : Type} (P : Reporter.t -> Prop) (b : bool) (m1 m2 : Method A) :
  keeps P m1 -> keeps P m2 -> keeps P (if b then m1 else m2).
Proof. destruct b; auto. Qed.

(** Goals of the form [keeps P m] where [m] is built with the combinators. *)
Ltac keeps_step :=
  lazymatch goal with
  | |- keeps _ (bind _ _) => apply keeps_bind; [|intros ?]
  | |- keeps _ (ret _) => apply keeps_ret
  | |- keeps _ (throw _) => apply keeps_throw
  | |- keeps _ (get _) => apply keeps_get
  | |- keeps _ (if _ then _ else _) => apply keeps_if
  | |- keeps _ (match ?x with _ => _ end) => destruct x
  end.

(** ** Printing leaves the report alone *)

Lemma printAll_nil (this : Reporter.t) : Reporter.printAll [] this = this.
Proof. destruct this; unfold Reporter.printAll; cbn. now rewrite app_nil_r. Qed.

Lemma printAll_printAll (l1 l2 : list ConsoleLine) (this : Reporter.t) :
  Reporter.printAll l2 (Reporter.printAll l1 this)
  = Reporter.printAll (l1 ++ l2) this.
Proof. unfold Reporter.printAll; cbn. now rewrite app_assoc. Qed.

Lemma extractMetadata_outcome (host : Host.t) (r : TestResult.t) (this : Reporter.t) :
  extractMetadata host r this
  = Returns (parsedMetadata host r) (Reporter.printAll (metadataLines host r) this).
Proof.
  unfold extractMetadata, parsedMetadata, metadataLines.
  destruct (List.find isMetadata (TestResult.attachments r)) as [a|];
    [destruct (Attachment.body a) as [body|];
     [destruct (Host.JSON_parse host (toString_utf8 body)) as [v|msg]|]|];
    unfold ret, bind, modify; now rewrite ?printAll_nil.
Qed.

Lemma metadataLines_parsed (host : Host.t) (r : TestResult.t) :
  metadataLines host r = [] \/ parsedMetadata host r = JNull.
Proof.
  unfold parsedMetadata, metadataLines.
  destruct (List.find isMetadata (TestResult.attachments r)) as [a|];
    [destruct (Attachment.body a) as [body|];
     [destruct (Host.JSON_parse host (toString_utf8 body)) as [v|msg]|]|];
    auto.
Qed.

(** [browserOf] ends as [browserValue] says, having printed what two calls
    of [extractMetadata] print. *)
Lemma browserOf_outcome (host : Host.t) (r : TestResult.t) (this : Reporter.t) :
  let after :=
    Reporter.printAll (metadataLines host r ++ metadataLines host r) this in
  browserOf host r this
  = match browserValue (parsedMetadata host r) with
    | Some browser => Returns browser after
    | None => Throws (TypeError "Cannot convert object to primitive value") after
    end.
Proof.
  cbn zeta. unfold browserOf, browserValue, bind.
  rewrite extractMetadata_outcome.
  destruct (metadataLines_parsed host r) as [Hlines|Hnull].
  - rewrite Hlines. cbn [app]. rewrite !printAll_nil.
    destruct (isDefined (optionalGet (parsedMetadata host r) "name")) eqn:Hname;
      cbn [orb]; unfold ret.
    + rewrite extractMetadata_outcome, Hlines, printAll_nil.
      destruct (templateToString (optionalGet (parsedMetadata host r) "name"));
        unfold throw; [|reflexivity].
      rewrite extractMetadata_outcome, Hlines, printAll_nil.
      destruct (templateToString (optionalGet (parsedMetadata host r) "version"));
        reflexivity.
    + rewrite extractMetadata_outcome, Hlines, printAll_nil.
      destruct (isDefined (optionalGet (parsedMetadata host r) "version"));
        [|reflexivity].
      rewrite extractMetadata_outcome, Hlines, printAll_nil.
      destruct (templateToString (optionalGet (parsedMetadata host r) "name"));
        unfold throw; [|reflexivity].
      rewrite extractMetadata_outcome, Hlines, printAll_nil.
      destruct (templateToString (optionalGet (parsedMetadata host r) "version"));
        reflexivity.
  - rewrite Hnull. cbn [optionalGet isDefined orb]. unfold ret.
    rewrite extractMetadata_outcome, Hnull. cbn [optionalGet isDefined].
    now rewrite printAll_printAll.
Qed.

(** ** The record of one attempt *)

Lemma updateCtrfTestResultsFromTestResult_full (host : Host.t)
    (tc : TestCase.t) (r : TestResult.t) (this : Reporter.t) :
  minimalMode this = Some false ->
  let after :=
    Reporter.printAll (metadataLines host r ++ metadataLines host r) this in
  match browserValue (parsedMetadata host r) with
  | Some browser =>
      exists test,
        updateCtrfTestResultsFromTestResult host tc (Some r) this
        = Returns tt (Reporter.with_tests (Reporter.tests this ++ [test]) after)
        /\ CtrfTest.name test = TestCase.title tc
        /\ CtrfTest.status test = mapPlaywrightStatusToCtrf (TestResult.status r)
        /\ CtrfTest.duration test = TestResult.duration r
        /\ CtrfTest.message test = FailureDetails.message (extractFailureDetails r)
        /\ CtrfTest.trace test = FailureDetails.trace (extractFailureDetails r)
        /\ CtrfTest.screenshot test
           = match screenshotMode this with
             | Some true => extractScreenshotBase64 r
             | _ => None
             end
        /\ CtrfTest.suite test = Some (buildSuitePath tc)
        /\ CtrfTest.browser test = browser
  | None =>
      updateCtrfTestResultsFromTestResult host tc (Some r) this
      = Throws (TypeError "Cannot convert object to primitive value") after
  end.
Proof.
  intros Hminimal after.
  unfold updateCtrfTestResultsFromTestResult, bind, get.
  unfold minimalMode in Hminimal. cbn beta. rewrite Hminimal.
  rewrite browserOf_outcome. fold after.
  destruct (browserValue (parsedMetadata host r)) as [browser|]; [|reflexivity].
  eexists. split; [reflexivity|]. cbn. repeat split; reflexivity.
Qed.

Lemma updateCtrfTestResultsFromTestResult_minimal (host : Host.t)
    (tc : TestCase.t) (r : TestResult.t) (this : Reporter.t) :
  minimalMode this <> Some false ->
  exists test,
    updateCtrfTestResultsFromTestResult host tc (Some r) this
    = Returns tt (Reporter.with_tests (Reporter.tests this ++ [test]) this)
    /\ CtrfTest.name test = TestCase.title tc
    /\ CtrfTest.status test = mapPlaywrightStatusToCtrf (TestResult.status r)
    /\ CtrfTest.duration test = TestResult.duration r
    /\ CtrfTest.message test = None /\ CtrfTest.trace test = None
    /\ CtrfTest.screenshot test = None
    /\ CtrfTest.browser test = None.
Proof.
  intros Hminimal.
  unfold updateCtrfTestResultsFromTestResult, bind, get.
  unfold minimalMode in Hminimal. cbn beta.
  destruct (ReporterConfigOptions.minimal (Reporter.reporterConfigOptions this))
    as [[|]|]; try congruence;
    (eexists; split; [reflexivity|]; cbn; repeat split; reflexivity).
Qed.

(** The summary is not touched while a record is built and pushed. *)
Lemma updateCtrfTestResultsFromTestResult_keeps_summary (host : Host.t)
    (tc : TestCase.t) (latest : option TestResult.t) (summary : gmap string Z) :
  keeps (fun this => Reporter.summary this = summary)
    (updateCtrfTestResultsFromTestResult host tc latest).
Proof.
  intros this Hsummary. destruct latest as [r|]; [|exact Hsummary].
  destruct (decide (minimalMode this = Some false)) as [Hfull|Hminimal].
  - pose proof (updateCtrfTestResultsFromTestResult_full host tc r this Hfull) as H.
    cbn zeta in H.
    destruct (browserValue (parsedMetadata host r)) as [browser|].
    + destruct H as (test & -> & _). exact Hsummary.
    + rewrite H. exact Hsummary.
  - destruct (updateCtrfTestResultsFromTestResult_minimal host tc r this Hminimal)
      as (test & -> & _).
    exact Hsummary.
Qed.

(** ** Counters *)

Lemma counter_insert (key key' : string) (value : Z) (summary : gmap string Z) :
  counter (<[key := value]> summary) key'
  = if decide (key = key') then value else counter summary key'.
Proof.
  unfold counter. rewrite lookup_insert. now destruct (decide (key = key')).
Qed.

Lemma counter_increment (key key' : string) (summary : gmap string Z) :
  counter (increment key summary) key'
  = if decide (key = key') then counter summary key + 1 else counter summary key'.
Proof. unfold increment. apply counter_insert. Qed.

Ltac counters :=
  unfold balanced in *;
  repeat first
    [ rewrite decide_True by reflexivity
    | rewrite decide_False by discriminate
    | rewrite counter_increment
    | rewrite counter_insert ];
  try lia.

Lemma balanced_count (state : CtrfTestState) (summary : gmap string Z) :
  balanced summary ->
  balanced (increment (CtrfTestState_key state) (increment "tests" summary)).
Proof. intros H. destruct state; cbn [CtrfTestState_key]; counters. Qed.

Lemma balanced_count_other (summary : gmap string Z) :
  balanced summary -> balanced (increment "other" (increment "tests" summary)).
Proof. apply (balanced_count other). Qed.

Lemma balanced_insert (key : string) (value : Z) (summary : gmap string Z) :
  key = "start" \/ key = "stop" \/ key = "suites" ->
  balanced summary -> balanced (<[key := value]> summary).
Proof. intros [->|[->| ->]] H; counters. Qed.

Lemma updateSummaryFromTestResult_keeps_balanced (r : TestResult.t) :
  keeps (fun this => balanced (Reporter.summary this))
    (updateSummaryFromTestResult (Some r)).
Proof.
  intros this H. unfold updateSummaryFromTestResult, bind, modify. cbn.
  destruct (_ !! _); cbn; [apply balanced_count | apply balanced_count_other]; exact H.
Qed.

Lemma keeps_summary_property {A : Type} (m : Method A) (Q : gmap string Z -> Prop) :
  (forall summary, keeps (fun this => Reporter.summary this = summary) m) ->
  keeps (fun this => Q (Reporter.summary this)) m.
Proof.
  intros Hm this H. now rewrite (Hm (Reporter.summary this) this eq_refl).
Qed.

Ltac keeps_modify_same :=
  apply keeps_modify; intros ? ?; assumption.

Ltac keeps_all :=
  repeat first [ keeps_modify_same | keeps_step ].

Lemma processTest_keeps_balanced (host : Host.t) (tc : TestCase.t) :
  keeps (fun this => balanced (Reporter.summary this)) (processTest host tc).
Proof.
  unfold processTest.
  destruct (index (TestCase.results tc) _) as [r|].
  - apply keeps_bind.
    + apply keeps_summary_property. intros summary.
      apply updateCtrfTestResultsFromTestResult_keeps_summary.
    + intros _. apply updateSummaryFromTestResult_keeps_balanced.
  - intros this H. exact H.
Qed.

Lemma processSuite_keeps_balanced (host : Host.t) (suite : Suite.t) :
  keeps (fun this => balanced (Reporter.summary this)) (processSuite host suite).
Proof.
  induction suite as [title tests suites IH] using Suite_induction.
  cbn [processSuite Suite.tests Suite.suites].
  apply keeps_bind.
  - apply keeps_forOf, Forall_forall. intros tc _. apply processTest_keeps_balanced.
  - intros _. apply keeps_forOf, IH.
Qed.

Lemma setEnvironmentDetails_keeps_summary (o : ReporterConfigOptions.t)
    (Q : gmap string Z -> Prop) :
  keeps (fun this => Q (Reporter.summary this)) (setEnvironmentDetails o).
Proof. unfold setEnvironmentDetails. keeps_all. Qed.

Lemma writeReportToFile_keeps_summary (host : Host.t) (data : CtrfReport.t)
    (Q : gmap string Z -> Prop) :
  keeps (fun this => Q (Reporter.summary this)) (writeReportToFile host data).
Proof. unfold writeReportToFile. keeps_all. Qed.

Lemma onBegin_keeps_balanced (host : Host.t) (now : Z) (suite : Suite.t) :
  keeps (fun this => balanced (Reporter.summary this)) (onBegin host now suite).
Proof.
  unfold onBegin. keeps_all;
    try apply setEnvironmentDetails_keeps_summary.
  apply keeps_modify. intros this H. cbn. apply balanced_insert; auto.
Qed.

Lemma onEnd_keeps_balanced (host : Host.t) (now : Z) :
  keeps (fun this => balanced (Reporter.summary this)) (onEnd host now).
Proof.
  unfold onEnd. keeps_all;
    try apply writeReportToFile_keeps_summary;
    try apply processSuite_keeps_balanced;
    apply keeps_modify; intros this H; cbn; apply balanced_insert; auto.
Qed.

Lemma constructor_balanced (config : ReporterConfigOptions.t) :
  balanced (Reporter.summary (constructor config)).
Proof. unfold constructor; cbn. counters. Qed.

(** C2: at the end of a run, and at whatever point a run is cut short, the
    [tests] counter of the summary is the sum of the counters [passed],
    [failed], [pending], [skipped] and [other]. *)
Theorem summary_tests_is_sum_of_buckets (host : Host.t)
    (config : ReporterConfigOptions.t) (begun ended : Z) (suite : Suite.t) :
  balanced
    (Reporter.summary (thisAfter (run host config begun ended suite))).
Proof.
  unfold run.
  apply (keeps_bind (fun this => balanced (Reporter.summary this))).
  - apply onBegin_keeps_balanced.
  - intros _. apply onEnd_keeps_balanced.
  - apply constructor_balanced.
Qed.

(** C1: [countSuites] returns 0 for every suite, so the [suites] counter of
    the summary is 0 after a run whose root suite has a child suite, where
    the number of nested suites is 1. *)
Theorem countSuites_ignores_nested_suites :
  (forall suite, countSuites suite = 0)
  /\ nestedSuites (Examples.rootWith []) = 1
  /\ exists this,
       run Reference.host ReporterConfigOptions.none 0 1 (Examples.rootWith [])
       = Returns tt this
       /\ Reporter.summary this !! "suites" = Some 0.
Proof.
  split; [exact countSuites_zero|]. split; [reflexivity|].
  eexists. split; [vm_compute; reflexivity|]. vm_compute. reflexivity.
Qed.

(** ** Screenshots *)

(** X19: [extractScreenshotBase64] encodes the first attachment of the list
    that is a screenshot (and gives [undefined] when that one has no
    body). *)
Lemma extractScreenshotBase64_first (r : TestResult.t)
    (before after : list Attachment.t) (shot : Attachment.t) :
  TestResult.attachments r = (before ++ shot :: after)%list ->
  Forall (fun a => isScreenshot a = false) before ->
  isScreenshot shot = true ->
  extractScreenshotBase64 r = option_map toString_base64 (Attachment.body shot).
Proof.
  intros Hlist Hbefore Hshot. unfold extractScreenshotBase64. rewrite Hlist.
  clear Hlist.
  assert (Hfind : List.find isScreenshot (before ++ shot :: after) = Some shot).
  { induction Hbefore as [|a rest Ha _ IH]; cbn [app List.find].
    - rewrite Hshot. reflexivity.
    - rewrite Ha. exact IH. }
  rewrite Hfind. now destruct (Attachment.body shot).
Qed.

(** C3: with screenshots enabled and minimal mode off, an attempt with two
    screenshot attachments, [first] then [last], gets the encoding of
    [first] as its screenshot field, while the last screenshot attachment of
    the list is [last], whose encoding is different. *)
Theorem screenshot_is_the_first_attached :
  let r := Examples.twoScreenshots in
  option_map Attachment.body (lastScreenshot r) = Some (Some "last")
  /\ toString_base64 "last" = "bGFzdA=="
  /\ toString_base64 "first" = "Zmlyc3Q="
  /\ extractScreenshotBase64 r = Some "Zmlyc3Q="
  /\ exists this test,
       run Reference.host Examples.withScreenshots 0 1
         (Examples.rootWith [Examples.testCase [r]])
       = Returns tt this
       /\ Reporter.tests this = [test]
       /\ CtrfTest.screenshot test = Some "Zmlyc3Q=".
Proof.
  cbn zeta. repeat split; try reflexivity.
  eexists. eexists. split; [vm_compute; reflexivity|].
  split; reflexivity.
Qed.

(** ** Failure details *)

(** In non-minimal mode, the record of an attempt whose host status is
    [failed] and that carries an error has the error's message as [message]
    and its stack as [trace]; the record of an attempt without an error has
    neither. *)
Theorem failure_details_of_failed_attempt (host : Host.t) (tc : TestCase.t)
    (r : TestResult.t) (this this' : Reporter.t) :
  minimalMode this = Some false ->
  updateCtrfTestResultsFromTestResult host tc (Some r) this = Returns tt this' ->
  exists test,
    Reporter.tests this' = (Reporter.tests this ++ [test])%list
    /\ (forall e,
          TestResult.status r = "failed" -> TestResult.error r = Some e ->
          CtrfTest.message test = TestError.message e
          /\ CtrfTest.trace test = TestError.stack e)
    /\ (TestResult.error r = None ->
        CtrfTest.message test = None /\ CtrfTest.trace test = None).
Proof.
  intros Hminimal Hreturns.
  pose proof (updateCtrfTestResultsFromTestResult_full host tc r this Hminimal) as H.
  cbn zeta in H.
  destruct (browserValue (parsedMetadata host r)) as [browser|];
    [|rewrite H in Hreturns; discriminate Hreturns].
  destruct H as (test & Heq & _ & _ & _ & Hmessage & Htrace & _).
  rewrite Heq in Hreturns. injection Hreturns as <-.
  exists test. split; [reflexivity|].
  rewrite Hmessage, Htrace. unfold extractFailureDetails. split.
  - intros e Hstatus Herror. rewrite Hstatus, Herror. split; reflexivity.
  - intros Herror. rewrite Herror.
    destruct (String.eqb (TestResult.status r) "failed"); split; reflexivity.
Qed.

Lemma failure_details_of_failed_attempt_witness :
  let tc := Examples.testCase [Examples.failedAttempt] in
  let this := constructor ReporterConfigOptions.none in
  let this' :=
    thisAfter (updateCtrfTestResultsFromTestResult Reference.host tc
                 (Some Examples.failedAttempt) this) in
  minimalMode this = Some false
  /\ exists test,
       Reporter.tests this' = [test]
       /\ CtrfTest.message test = Some "expected true, got false"
       /\ CtrfTest.trace test
          = Some "Error: expected true, got false at login.spec.ts:7".
Proof.
  intros tc this this'. split; [reflexivity|].
  destruct (failure_details_of_failed_attempt Reference.host tc
              Examples.failedAttempt this this')
    as (test & Htests & Hfailed & _).
  - reflexivity.
  - vm_compute. reflexivity.
  - exists test. split; [exact Htests|].
    exact (Hfailed Examples.assertionError eq_refl eq_refl).
Defined.

(** C4: [extractFailureDetails] compares the host status with [failed]
    only, where [mapPlaywrightStatusToCtrf] also reports [timedOut] and
    [interrupted] as failed.  For an attempt that timed out and carries an
    error, the normalized status is failed, yet the record made in
    non-minimal mode has no message and no trace, where the error has
    both. *)
Lemma failure_details_missing_for_timedOut :
  let r := Examples.timedOut in
  mapPlaywrightStatusToCtrf (TestResult.status r) = failed
  /\ TestResult.error r = Some Examples.timeoutError
  /\ exists this test,
       minimalMode (constructor ReporterConfigOptions.none) = Some false
       /\ updateCtrfTestResultsFromTestResult Reference.host
            (Examples.testCase [r]) (Some r) (constructor ReporterConfigOptions.none)
          = Returns tt this
       /\ Reporter.tests this = [test]
       /\ CtrfTest.message test = None
       /\ CtrfTest.message test <> TestError.message Examples.timeoutError
       /\ CtrfTest.trace test = None
       /\ CtrfTest.trace test <> TestError.stack Examples.timeoutError.
Proof.
  cbn zeta. split; [reflexivity|]. split; [reflexivity|].
  eexists. eexists. split; [reflexivity|].
  split; [vm_compute; reflexivity|].
  split; [reflexivity|]. cbn. repeat split; discriminate.
Qed.

(** In non-minimal mode the record of an attempt whose host status is not
    [failed], as [timedOut] and [interrupted], has neither message nor
    trace, with or without an error. *)
Lemma failure_details_only_for_host_failed (host : Host.t) (tc : TestCase.t)
    (r : TestResult.t) (this this' : Reporter.t) :
  minimalMode this = Some false ->
  TestResult.status r <> "failed" ->
  updateCtrfTestResultsFromTestResult host tc (Some r) this = Returns tt this' ->
  exists test,
    Reporter.tests this' = (Reporter.tests this ++ [test])%list
    /\ CtrfTest.message test = None /\ CtrfTest.trace test = None.
Proof.
  intros Hminimal Hstatus Hreturns.
  pose proof (updateCtrfTestResultsFromTestResult_full host tc r this Hminimal) as H.
  cbn zeta in H.
  destruct (browserValue (parsedMetadata host r)) as [browser|];
    [|rewrite H in Hreturns; discriminate Hreturns].
  destruct H as (test & Heq & _ & _ & _ & Hmessage & Htrace & _).
  rewrite Heq in Hreturns. injection Hreturns as <-.
  exists test. split; [reflexivity|].
  rewrite Hmessage, Htrace. unfold extractFailureDetails.
  apply String.eqb_neq in Hstatus. rewrite Hstatus. split; reflexivity.
Qed.

(** ** Browser metadata *)

Lemma browserValue_strings (metadata : JsValue) (name version : string) :
  optionalGet metadata "name" = Some (JString name) ->
  optionalGet metadata "version" = Some (JString version) ->
  browserValue metadata = Some (Some (name +:+ " " +:+ version)).
Proof. intros Hn Hv. unfold browserValue. now rewrite Hn, Hv. Qed.

Lemma browserValue_absent (metadata : JsValue) :
  optionalGet metadata "name" = None ->
  optionalGet metadata "version" = None ->
  browserValue metadata = Some None.
Proof. intros Hn Hv. unfold browserValue. now rewrite Hn, Hv. Qed.

Lemma record_with_browser (host : Host.t) (tc : TestCase.t) (r : TestResult.t)
    (this : Reporter.t) (browser : option string) :
  minimalMode this = Some false ->
  browserValue (parsedMetadata host r) = Some browser ->
  exists this' test,
    updateCtrfTestResultsFromTestResult host tc (Some r) this = Returns tt this'
    /\ Reporter.tests this' = (Reporter.tests this ++ [test])%list
    /\ CtrfTest.status test = mapPlaywrightStatusToCtrf (TestResult.status r)
    /\ CtrfTest.browser test = browser.
Proof.
  intros Hminimal Hbrowser.
  pose proof (updateCtrfTestResultsFromTestResult_full host tc r this Hminimal) as H.
  cbn zeta in H. rewrite Hbrowser in H.
  destruct H as (test & Heq & _ & Hstatus & _ & _ & _ & _ & _ & Hb).
  eexists. exists test. split; [exact Heq|]. split; [reflexivity|].
  split; assumption.
Qed.

Lemma browserValue_defined (metadata name version : JsValue)
    (nameText versionText : string) :
  optionalGet metadata "name" = Some name ->
  optionalGet metadata "version" = Some version ->
  ToString name = Some nameText ->
  ToString version = Some versionText ->
  browserValue metadata = Some (Some (nameText +:+ " " +:+ versionText)).
Proof.
  intros Hname Hversion HnameText HversionText. unfold browserValue.
  rewrite Hname, Hversion. cbn [isDefined orb templateToString].
  now rewrite HnameText, HversionText.
Qed.

(** C5, amended: in non-minimal mode, when the value parsed from the first
    [metadata.json] attachment has a [name] and a [version], whatever JSON
    values they are (strings, numbers, ...), and both convert to text as a
    template literal converts them, the record's browser field is the text
    of the name, a space and the text of the version; when that value has
    neither a [name] nor a [version] (also when there is no such
    attachment, when it has no body and when its body does not parse), the
    record has no browser field. *)
Theorem browser_field_from_metadata (host : Host.t) (tc : TestCase.t)
    (r : TestResult.t) (this : Reporter.t) :
  minimalMode this = Some false ->
  (forall name version nameText versionText,
     optionalGet (parsedMetadata host r) "name" = Some name ->
     optionalGet (parsedMetadata host r) "version" = Some version ->
     ToString name = Some nameText ->
     ToString version = Some versionText ->
     exists this' test,
       updateCtrfTestResultsFromTestResult host tc (Some r) this = Returns tt this'
       /\ Reporter.tests this' = (Reporter.tests this ++ [test])%list
       /\ CtrfTest.browser test = Some (nameText +:+ " " +:+ versionText))
  /\ (forall name version,
        optionalGet (parsedMetadata host r) "name" = Some (JString name) ->
        optionalGet (parsedMetadata host r) "version" = Some (JString version) ->
        exists this' test,
          updateCtrfTestResultsFromTestResult host tc (Some r) this = Returns tt this'
          /\ Reporter.tests this' = (Reporter.tests this ++ [test])%list
          /\ CtrfTest.browser test = Some (name +:+ " " +:+ version))
  /\ (optionalGet (parsedMetadata host r) "name" = None ->
      optionalGet (parsedMetadata host r) "version" = None ->
      exists this' test,
        updateCtrfTestResultsFromTestResult host tc (Some r) this = Returns tt this'
        /\ Reporter.tests this' = (Reporter.tests this ++ [test])%list
        /\ CtrfTest.browser test = None).
Proof.
  intros Hminimal.
  assert (Hgeneral : forall name version nameText versionText,
    optionalGet (parsedMetadata host r) "name" = Some name ->
    optionalGet (parsedMetadata host r) "version" = Some version ->
    ToString name = Some nameText ->
    ToString version = Some versionText ->
    exists this' test,
      updateCtrfTestResultsFromTestResult host tc (Some r) this = Returns tt this'
      /\ Reporter.tests this' = (Reporter.tests this ++ [test])%list
      /\ CtrfTest.browser test = Some (nameText +:+ " " +:+ versionText)).
  { intros name version nameText versionText Hname Hversion HnameText HversionText.
    destruct (record_with_browser host tc r this _ Hminimal
                (browserValue_defined _ _ _ _ _ Hname Hversion
                   HnameText HversionText))
      as (this' & test & Heq & Htests & _ & Hbrowser).
    exists this', test. auto. }
  split; [exact Hgeneral|]. split.
  - intros name version Hname Hversion.
    exact (Hgeneral (JString name) (JString version) name version
             Hname Hversion eq_refl eq_refl).
  - intros Hname Hversion.
    destruct (record_with_browser host tc r this _ Hminimal
                (browserValue_absent _ Hname Hversion))
      as (this' & test & Heq & Htests & _ & Hbrowser).
    exists this', test. auto.
Qed.

Lemma browser_field_from_metadata_witness :
  let this := constructor ReporterConfigOptions.none in
  let described := Examples.withMetadata Examples.nameAndVersion in
  let numbered := Examples.withMetadata Examples.nameAndNumber in
  let plain := Examples.passedAttempt in
  minimalMode this = Some false
  /\ (exists this' test,
        updateCtrfTestResultsFromTestResult Reference.host
          (Examples.testCase [numbered]) (Some numbered) this = Returns tt this'
        /\ Reporter.tests this' = [test]
        /\ CtrfTest.browser test = Some "chromium 120")
  /\ (exists this' test,
        updateCtrfTestResultsFromTestResult Reference.host
          (Examples.testCase [described]) (Some described) this = Returns tt this'
        /\ Reporter.tests this' = [test]
        /\ CtrfTest.browser test = Some "chromium 120.0")
  /\ (exists this' test,
        updateCtrfTestResultsFromTestResult Reference.host
          (Examples.testCase [plain]) (Some plain) this = Returns tt this'
        /\ Reporter.tests this' = [test]
        /\ CtrfTest.browser test = None).
Proof.
  intros this described numbered plain. split; [reflexivity|]. split; [|split].
  - apply (proj1 (browser_field_from_metadata Reference.host
                    (Examples.testCase [numbered]) numbered this eq_refl)
             (JString "chromium") (JNumber "120") "chromium" "120").
    + vm_compute. reflexivity.
    + vm_compute. reflexivity.
    + reflexivity.
    + reflexivity.
  - apply (proj1 (proj2 (browser_field_from_metadata Reference.host
                           (Examples.testCase [described]) described this eq_refl))
             "chromium" "120.0").
    + vm_compute. reflexivity.
    + vm_compute. reflexivity.
  - apply (proj2 (proj2 (browser_field_from_metadata Reference.host
                           (Examples.testCase [plain]) plain this eq_refl))).
    + reflexivity.
    + reflexivity.
Defined.

(** The claim C5 as it was stated fails for metadata that has a [name] and
    no [version]: the browser field is present all the same. *)
Lemma browser_field_with_name_only :
  let r := Examples.withMetadata Examples.nameOnly in
  parsedMetadata Reference.host r = JObject [("name", JString "chromium")]
  /\ optionalGet (parsedMetadata Reference.host r) "version" = None
  /\ exists this test,
       minimalMode (constructor ReporterConfigOptions.none) = Some false
       /\ updateCtrfTestResultsFromTestResult Reference.host
            (Examples.testCase [r]) (Some r) (constructor ReporterConfigOptions.none)
          = Returns tt this
       /\ Reporter.tests this = [test]
       /\ CtrfTest.browser test = Some "chromium undefined"
       /\ CtrfTest.browser test <> None.
Proof.
  cbn zeta. split; [vm_compute; reflexivity|]. split; [vm_compute; reflexivity|].
  eexists. eexists. split; [reflexivity|].
  split; [vm_compute; reflexivity|].
  split; [reflexivity|]. cbn. split; [reflexivity | discriminate].
Qed.

(** ** The last attempt of a test case *)

Lemma index_last {A : Type} (l : list A) (x : A) :
  index (l ++ [x]) (Z.of_nat (length (l ++ [x])) - 1) = Some x.
Proof.
  unfold index. rewrite length_app. cbn [length].
  destruct (Z.ltb_spec (Z.of_nat (length l + 1) - 1) 0) as [Hneg|_]; [lia|].
  replace (Z.to_nat (Z.of_nat (length l + 1) - 1)) with (length l) by lia.
  rewrite lookup_app_r by lia. now rewrite Nat.sub_diag.
Qed.

Lemma updateSummaryFromTestResult_returns (r : TestResult.t) (this : Reporter.t) :
  exists this', updateSummaryFromTestResult (Some r) this = Returns tt this'.
Proof.
  unfold updateSummaryFromTestResult, bind, modify. eexists. reflexivity.
Qed.

Lemma processTest_undefined (host : Host.t) (tc : TestCase.t) (this : Reporter.t) :
  TestCase.results tc = [] ->
  processTest host tc this
  = Throws (TypeError "Cannot read properties of undefined (reading 'status')") this.
Proof. intros Hresults. unfold processTest. rewrite Hresults. reflexivity. Qed.

(** ** Malformed metadata *)

(** C9: when the body of the [metadata.json] attachment does not parse,
    [extractMetadata] prints the error and returns [null] instead of
    throwing; the record of the attempt is produced without a browser field
    and with its usual name, status and duration, and processing the test
    case returns. *)
Theorem malformed_metadata_is_logged_and_ignored (host : Host.t)
    (tc : TestCase.t) (r : TestResult.t) (this : Reporter.t)
    (attachment : Attachment.t) (body message : string) :
  List.find isMetadata (TestResult.attachments r) = Some attachment ->
  Attachment.body attachment = Some body ->
  Host.JSON_parse host (toString_utf8 body) = inr message ->
  extractMetadata host r this
  = Returns JNull
      (Reporter.print
         (console_error ("Error parsing browser metadata: " +:+ message)) this)
  /\ (exists this' test,
        updateCtrfTestResultsFromTestResult host tc (Some r) this = Returns tt this'
        /\ Reporter.tests this' = (Reporter.tests this ++ [test])%list
        /\ CtrfTest.name test = TestCase.title tc
        /\ CtrfTest.status test = mapPlaywrightStatusToCtrf (TestResult.status r)
        /\ CtrfTest.duration test = TestResult.duration r
        /\ CtrfTest.browser test = None
        /\ (minimalMode this = Some false ->
            let line :=
              console_error ("Error parsing browser metadata: " +:+ message) in
            Reporter.console this' = (Reporter.console this ++ [line; line])%list))
  /\ (forall earlier, TestCase.results tc = (earlier ++ [r])%list ->
      exists this', processTest host tc this = Returns tt this').
Proof.
  intros Hfind Hbody Hparse.
  assert (Hvalue : parsedMetadata host r = JNull).
  { unfold parsedMetadata. now rewrite Hfind, Hbody, Hparse. }
  assert (Hlines : metadataLines host r
                   = [console_error ("Error parsing browser metadata: " +:+ message)]).
  { unfold metadataLines. now rewrite Hfind, Hbody, Hparse. }
  assert (Hrecord : exists this' test,
    updateCtrfTestResultsFromTestResult host tc (Some r) this = Returns tt this'
    /\ Reporter.tests this' = (Reporter.tests this ++ [test])%list
    /\ CtrfTest.name test = TestCase.title tc
    /\ CtrfTest.status test = mapPlaywrightStatusToCtrf (TestResult.status r)
    /\ CtrfTest.duration test = TestResult.duration r
    /\ CtrfTest.browser test = None
    /\ (minimalMode this = Some false ->
        let line :=
          console_error ("Error parsing browser metadata: " +:+ message) in
        Reporter.console this' = (Reporter.console this ++ [line; line])%list)).
  { destruct (decide (minimalMode this = Some false)) as [Hfull|Hminimal].
    - pose proof (updateCtrfTestResultsFromTestResult_full host tc r this Hfull) as H.
      cbn zeta in H. rewrite Hvalue, Hlines in H. cbn in H.
      destruct H as (test & Heq & Hname & Hstatus & Hduration & _ & _ & _ & _ & Hb).
      eexists. exists test. split; [exact Heq|]. split; [reflexivity|].
      repeat (split; [assumption|]). intros _. reflexivity.
    - destruct (updateCtrfTestResultsFromTestResult_minimal host tc r this Hminimal)
        as (test & Heq & Hname & Hstatus & Hduration & _ & _ & _ & Hb).
      eexists. exists test. split; [exact Heq|]. split; [reflexivity|].
      repeat (split; [assumption|]). intros Hfull. contradiction. }
  split; [|split].
  - unfold extractMetadata. rewrite Hfind, Hbody, Hparse. reflexivity.
  - exact Hrecord.
  - intros earlier Hresults. unfold processTest. rewrite Hresults, index_last.
    destruct Hrecord as (this1 & test & Heq & _).
    unfold bind. rewrite Heq. apply updateSummaryFromTestResult_returns.
Qed.

Lemma malformed_metadata_is_logged_and_ignored_witness :
  let r := Examples.withMetadata Examples.malformed in
  let tc := Examples.testCase [r] in
  let this := constructor ReporterConfigOptions.none in
  Host.JSON_parse Reference.host Examples.malformed = inr "Unexpected token in JSON"
  /\ extractMetadata Reference.host r this
     = Returns JNull
         (Reporter.print
            (console_error
               "Error parsing browser metadata: Unexpected token in JSON") this)
  /\ (exists this' test,
        updateCtrfTestResultsFromTestResult Reference.host tc (Some r) this
        = Returns tt this'
        /\ Reporter.tests this' = [test]
        /\ CtrfTest.browser test = None)
  /\ exists this', processTest Reference.host tc this = Returns tt this'.
Proof.
  intros r tc this.
  destruct (malformed_metadata_is_logged_and_ignored Reference.host tc r this
              (Examples.metadataAttachment Examples.malformed) Examples.malformed
              "Unexpected token in JSON")
    as (Hextract & (this' & test & Heq & Htests & _ & _ & _ & Hbrowser & _)
        & Hprocess).
  - reflexivity.
  - reflexivity.
  - vm_compute. reflexivity.
  - split; [vm_compute; reflexivity|]. split; [exact Hextract|]. split.
    + exists this', test. auto.
    + apply (Hprocess []). reflexivity.
Defined.

(** ** Test cases without an attempt *)

Lemma forOf_returns {A : Type} (body : A -> Method unit) (l : list A)
    (this this' : Reporter.t) :
  forOf body l this = Returns tt this' ->
  Forall (fun x => exists s s', body x s = Returns tt s') l.
Proof.
  revert this. induction l as [|x rest IH]; intros this H; constructor.
  - cbn [forOf] in H. unfold bind in H.
    destruct (body x this) as [[] s'|e s'] eqn:Hx; [|discriminate H].
    eauto.
  - cbn [forOf] in H. unfold bind in H.
    destruct (body x this) as [[] s'|e s']; [|discriminate H].
    eapply IH, H.
Qed.

Lemma processTest_returns_only_with_attempt (host : Host.t) (tc : TestCase.t) :
  (exists s s', processTest host tc s = Returns tt s') -> TestCase.results tc <> [].
Proof.
  intros (s & s' & H) Hempty.
  rewrite (processTest_undefined host tc s Hempty) in H. discriminate H.
Qed.

Lemma processSuite_returns_only_with_attempts (host : Host.t) (suite : Suite.t) :
  forall this this',
    processSuite host suite this = Returns tt this' ->
    Forall (fun tc => TestCase.results tc <> []) (visitedTests suite).
Proof.
  induction suite as [title tests suites IH] using Suite_induction.
  intros this this' H.
  cbn [processSuite Suite.tests Suite.suites] in H.
  cbn [visitedTests Suite.tests Suite.suites].
  unfold bind in H.
  destruct (forOf (processTest host) tests this) as [[] this1|e this1] eqn:Htests;
    [|discriminate H].
  apply Forall_app. split.
  - apply forOf_returns in Htests.
    eapply Forall_impl; [exact Htests|].
    intros tc Htc. cbn beta in Htc.
    apply (processTest_returns_only_with_attempt host), Htc.
  - apply forOf_returns in H. apply Forall_flat_map.
    rewrite Forall_forall in IH, H |- *. intros child Hchild.
    destruct (H child Hchild) as (s & s' & Hreturns).
    eapply IH; eassumption.
Qed.

(** C10: the last attempt is read at index [length - 1] with no check.  For
    a test case without attempts that index holds nothing and processing
    the test case throws on the first field access; so when the traversal,
    or [onEnd] as a whole, returns, every visited test case has an
    attempt. *)
Theorem processTest_needs_an_attempt (host : Host.t) :
  (forall tc this,
     TestCase.results tc = [] ->
     index (TestCase.results tc) (Z.of_nat (length (TestCase.results tc)) - 1) = None
     /\ processTest host tc this
        = Throws (TypeError "Cannot read properties of undefined (reading 'status')")
            this)
  /\ (forall suite this this',
        processSuite host suite this = Returns tt this' ->
        Forall (fun tc => TestCase.results tc <> []) (visitedTests suite))
  /\ (forall now suite this this',
        Reporter.suite this = Some suite ->
        onEnd host now this = Returns tt this' ->
        Forall (fun tc => TestCase.results tc <> []) (visitedTests suite)).
Proof.
  split; [|split].
  - intros tc this Hempty. split.
    + rewrite Hempty. reflexivity.
    + apply processTest_undefined, Hempty.
  - intros suite. apply processSuite_returns_only_with_attempts.
  - intros now suite this this' Hsuite H.
    unfold onEnd, bind, modify, get in H. cbn in H. rewrite Hsuite in H.
    destruct (processSuite host suite _) as [[] this1|e this1] eqn:Hprocess;
      [|discriminate H].
    eapply processSuite_returns_only_with_attempts, Hprocess.
Qed.

Lemma processTest_needs_an_attempt_witness :
  let this := constructor ReporterConfigOptions.none in
  let suite := Examples.rootWith [Examples.testCase [Examples.passedAttempt]] in
  processTest Reference.host (Examples.testCase []) this
  = Throws (TypeError "Cannot read properties of undefined (reading 'status')") this
  /\ (exists this', processSuite Reference.host suite this = Returns tt this')
  /\ Forall (fun tc => TestCase.results tc <> []) (visitedTests suite).
Proof.
  intros this suite.
  destruct (processTest_needs_an_attempt Reference.host) as (Hempty & Hsuite & _).
  assert (Hreturns : processSuite Reference.host suite this
                     = Returns tt (thisAfter (processSuite Reference.host suite this))).
  { vm_compute. reflexivity. }
  split; [|split].
  - apply (Hempty (Examples.testCase []) this). reflexivity.
  - eexists. exact Hreturns.
  - exact (Hsuite suite this _ Hreturns).
Defined.

(** ** How far the counters move *)

Lemma updateCtrfTestResultsFromTestResult_pushes (host : Host.t)
    (tc : TestCase.t) (r : TestResult.t) (this this' : Reporter.t) :
  updateCtrfTestResultsFromTestResult host tc (Some r) this = Returns tt this' ->
  Reporter.summary this' = Reporter.summary this
  /\ exists test, Reporter.tests this' = (Reporter.tests this ++ [test])%list.
Proof.
  intros H. destruct (decide (minimalMode this = Some false)) as [Hfull|Hminimal].
  - pose proof (updateCtrfTestResultsFromTestResult_full host tc r this Hfull) as Hf.
    cbn zeta in Hf.
    destruct (browserValue (parsedMetadata host r)) as [browser|].
    + destruct Hf as (test & Heq & _). rewrite Heq in H. injection H as <-.
      split; [reflexivity | exists test; reflexivity].
    + rewrite Hf in H. discriminate H.
  - destruct (updateCtrfTestResultsFromTestResult_minimal host tc r this Hminimal)
      as (test & Heq & _).
    rewrite Heq in H. injection H as <-.
    split; [reflexivity | exists test; reflexivity].
Qed.

Lemma processTest_counts (host : Host.t) (tc : TestCase.t) (this this' : Reporter.t) :
  processTest host tc this = Returns tt this' ->
  counter (Reporter.summary this') "tests" = counter (Reporter.summary this) "tests" + 1
  /\ Z.of_nat (length (Reporter.tests this'))
     = Z.of_nat (length (Reporter.tests this)) + 1.
Proof.
  unfold processTest.
  destruct (index (TestCase.results tc) _) as [r|]; [|discriminate].
  unfold bind.
  destruct (updateCtrfTestResultsFromTestResult host tc (Some r) this)
    as [[] this1|e this1] eqn:Hrecord; [|discriminate].
  apply updateCtrfTestResultsFromTestResult_pushes in Hrecord.
  destruct Hrecord as (Hsummary & test & Htests).
  unfold updateSummaryFromTestResult, bind, modify.
  intros H. injection H as <-.
  assert (Hkept : forall summary,
    Reporter.tests (Reporter.with_summary summary
                      (Reporter.with_summary
                         (increment "tests" (Reporter.summary this1)) this1))
    = Reporter.tests this1) by reflexivity.
  assert (Hset : forall summary that,
    Reporter.summary (Reporter.with_summary summary that) = summary) by reflexivity.
  split.
  - destruct (_ !! _); rewrite Hset, Hset, Hsummary;
      destruct (mapPlaywrightStatusToCtrf (TestResult.status r));
      cbn [CtrfTestState_key]; counters.
  - assert (Hlength : Z.of_nat (length (Reporter.tests this1))
                      = Z.of_nat (length (Reporter.tests this)) + 1).
    { rewrite Htests, length_app. cbn [length]. lia. }
    destruct (_ !! _); rewrite Hkept; exact Hlength.
Qed.

Lemma forOf_accumulates {A : Type} (body : A -> Method unit)
    (measure : Reporter.t -> Z) (weight : A -> Z) (l : list A) :
  Forall (fun x => forall s s',
            body x s = Returns tt s' -> measure s' = measure s + weight x) l ->
  forall this this',
    forOf body l this = Returns tt this' ->
    measure this' = measure this + total 0 (map weight l).
Proof.
  induction 1 as [|x rest Hx _ IH]; intros this this' H; cbn [forOf] in H.
  - injection H as <-. unfold total. cbn [map fold_right]. lia.
  - unfold bind in H.
    destruct (body x this) as [[] this1|e this1] eqn:Hbody; [|discriminate H].
    rewrite (IH _ _ H), (Hx _ _ Hbody).
    unfold total. cbn [map fold_right]. lia.
Qed.

Lemma total_ones {A : Type} (l : list A) :
  total 0 (map (fun _ => 1) l) = Z.of_nat (length l).
Proof.
  unfold total. induction l as [|x rest IH]; cbn [map fold_right length] in *; lia.
Qed.

Lemma total_visitedTests (suites : list Suite.t) :
  total 0 (map (fun child => Z.of_nat (length (visitedTests child))) suites)
  = Z.of_nat (length (flat_map visitedTests suites)).
Proof.
  unfold total.
  induction suites as [|child rest IH]; cbn [map fold_right flat_map] in *.
  - reflexivity.
  - rewrite length_app. lia.
Qed.

(** Each of the two measures, the [tests] counter and the number of
    records, grows by one per visited test case. *)
Lemma processSuite_accumulates (host : Host.t) (measure : Reporter.t -> Z)
    (suite : Suite.t) :
  (forall tc s s', processTest host tc s = Returns tt s' -> measure s' = measure s + 1) ->
  forall this this',
    processSuite host suite this = Returns tt this' ->
    measure this' = measure this + Z.of_nat (length (visitedTests suite)).
Proof.
  intros Hstep.
  induction suite as [title tests suites IH] using Suite_induction.
  intros this this' H.
  cbn [processSuite Suite.tests Suite.suites] in H.
  cbn [visitedTests Suite.tests Suite.suites].
  unfold bind in H.
  destruct (forOf (processTest host) tests this) as [[] this1|e this1] eqn:Htests;
    [|discriminate H].
  apply (forOf_accumulates _ measure (fun _ => 1)) in Htests;
    [|apply Forall_forall; intros tc _; apply Hstep].
  apply (forOf_accumulates _ measure
           (fun child => Z.of_nat (length (visitedTests child)))) in H;
    [|exact IH].
  rewrite H, Htests, total_ones, total_visitedTests, length_app. lia.
Qed.

(** When the traversal returns, the [tests] counter and the list of records
    have both grown by the number of visited test cases. *)
Theorem processSuite_counts_every_test (host : Host.t) (suite : Suite.t)
    (this this' : Reporter.t) :
  processSuite host suite this = Returns tt this' ->
  counter (Reporter.summary this') "tests"
  = counter (Reporter.summary this) "tests" + Z.of_nat (length (visitedTests suite))
  /\ length (Reporter.tests this')
     = (length (Reporter.tests this) + length (visitedTests suite))%nat.
Proof.
  intros H. split.
  - apply (processSuite_accumulates host
             (fun s => counter (Reporter.summary s) "tests") suite); [|exact H].
    intros tc s s' Hs. apply (processTest_counts host tc s s' Hs).
  - apply Nat2Z.inj. rewrite Nat2Z.inj_add.
    apply (processSuite_accumulates host
             (fun s => Z.of_nat (length (Reporter.tests s))) suite); [|exact H].
    intros tc s s' Hs. apply (processTest_counts host tc s s' Hs).
Qed.

(** A run of three test cases: one passed, one failed with the message
    [expected true, got false], one passed on its second attempt. *)
Example run_of_three_tests :
  exists this first second third,
    run Reference.host ReporterConfigOptions.none 1700000000000 1700000002000
      Examples.threeTests = Returns tt this
    /\ Reporter.tests this = [first; second; third]
    /\ Reporter.summary this !! "tests" = Some 3
    /\ Reporter.summary this !! "passed" = Some 2
    /\ Reporter.summary this !! "failed" = Some 1
    /\ CtrfTest.status second = failed
    /\ CtrfTest.message second = Some "expected true, got false"
    /\ CtrfTest.status third = passed
    /\ CtrfTest.retry third = Some 1
    /\ CtrfTest.flake third = Some true
    /\ CtrfTest.suite third = Some "login.spec.ts"
    /\ CtrfTest.tags third = Some ["@smoke"].
Proof.
  do 4 eexists. split; [vm_compute; reflexivity|].
  repeat split; vm_compute; reflexivity.
Qed.

(** ** When the traversal returns *)

Lemma forOf_returns_all {A : Type} (body : A -> Method unit) (l : list A) :
  Forall (fun x => forall s, exists s', body x s = Returns tt s') l ->
  forall this, exists this', forOf body l this = Returns tt this'.
Proof.
  induction 1 as [|x rest Hx _ IH]; intros this; cbn [forOf].
  - eexists. reflexivity.
  - unfold bind. destruct (Hx this) as (this1 & ->). apply IH.
Qed.

Lemma processTest_returns (host : Host.t) (tc : TestCase.t) :
  TestCase.results tc <> [] -> convertible host tc ->
  forall this, exists this', processTest host tc this = Returns tt this'.
Proof.
  intros Hattempt Hconvertible this.
  destruct (exists_last Hattempt) as (earlier & r & Hresults).
  specialize (Hconvertible earlier r Hresults).
  unfold processTest. rewrite Hresults, index_last. unfold bind.
  destruct (decide (minimalMode this = Some false)) as [Hfull|Hminimal].
  - pose proof (updateCtrfTestResultsFromTestResult_full host tc r this Hfull) as H.
    cbn zeta in H.
    destruct (browserValue (parsedMetadata host r)) as [browser|]; [|congruence].
    destruct H as (test & -> & _). apply updateSummaryFromTestResult_returns.
  - destruct (updateCtrfTestResultsFromTestResult_minimal host tc r this Hminimal)
      as (test & -> & _).
    apply updateSummaryFromTestResult_returns.
Qed.

(** X23: the traversal returns when every visited test case has an attempt
    whose metadata, if any, converts to a browser string. *)
Theorem processSuite_returns_with_attempts (host : Host.t) (suite : Suite.t) :
  Forall (fun tc => TestCase.results tc <> [] /\ convertible host tc)
    (visitedTests suite) ->
  forall this, exists this', processSuite host suite this = Returns tt this'.
Proof.
  induction suite as [title tests suites IH] using Suite_induction.
  cbn [visitedTests Suite.tests Suite.suites]. intros Hall this.
  apply Forall_app in Hall. destruct Hall as [Hown Hnested].
  cbn [processSuite Suite.tests Suite.suites]. unfold bind.
  destruct (forOf_returns_all (processTest host) tests) with (this := this)
    as (this1 & ->).
  { eapply Forall_impl; [exact Hown|].
    intros tc [Hattempt Hconvertible]. cbn beta. now apply processTest_returns. }
  apply forOf_returns_all.
  apply Forall_flat_map in Hnested.
  rewrite Forall_forall in IH, Hnested |- *.
  intros child Hchild. apply (IH child Hchild), (Hnested child Hchild).
Qed.

(** ** Tags *)

Lemma wordChars_snoc (word : string) (c : ascii) :
  wordChars word = true -> isWordChar c = true ->
  wordChars (word +:+ String c "") = true.
Proof.
  intros Hword Hc. induction word as [|d word IH].
  - rewrite append_empty. cbn [wordChars]. now rewrite Hc.
  - rewrite append_cons. cbn [wordChars] in *.
    apply andb_true_iff in Hword. destruct Hword as [Hd Hrest].
    now rewrite Hd, IH.
Qed.

Lemma matchTags_wellformed (chars : list ascii) (current : option string) :
  (forall token, current = Some token ->
     exists word, token = String "@" word /\ wordChars word = true) ->
  Forall (fun tag => isTag tag = true) (matchTags chars current).
Proof.
  revert current.
  assert (Hflush : forall current,
    (forall token, current = Some token ->
       exists word, token = String "@" word /\ wordChars word = true) ->
    Forall (fun tag => isTag tag = true)
      match current with
      | Some token => if (1 <? String.length token)%nat then [token] else []
      | None => []
      end).
  { intros [token|] Hcurrent; [|constructor].
    destruct (Hcurrent token eq_refl) as (word & -> & Hword).
    destruct word as [|d word]; cbn; [constructor|].
    constructor; [|constructor]. cbn in Hword |- *. exact Hword. }
  assert (Hrestart : forall (c : ascii) token,
    (if Ascii.eqb c "@" then Some "@" else None) = Some token ->
    exists word, token = String "@" word /\ wordChars word = true).
  { intros c token H. destruct (Ascii.eqb c "@"); [|discriminate H].
    injection H as <-. exists "". split; reflexivity. }
  induction chars as [|c rest IH]; intros current Hcurrent; cbn [matchTags].
  - apply Hflush, Hcurrent.
  - destruct current as [token|].
    + destruct (isWordChar c) eqn:Hc.
      * apply IH. intros token' H. injection H as <-.
        destruct (Hcurrent token eq_refl) as (word & -> & Hword).
        exists (word +:+ String c ""). split; [apply append_cons|].
        now apply wordChars_snoc.
      * apply Forall_app. split.
        -- apply (Hflush (Some token)), Hcurrent.
        -- apply IH, Hrestart.
    + apply IH, Hrestart.
Qed.

(** X1: every tag that [extractTagsFromTitle] returns is an [@] followed by
    at least one character, all of them word characters. *)
Theorem extractTagsFromTitle_wellformed (title : string) :
  Forall (fun tag => isTag tag = true) (extractTagsFromTitle title).
Proof.
  unfold extractTagsFromTitle. apply matchTags_wellformed.
  intros token H. discriminate H.
Qed.

Lemma list_ascii_of_append (a b : string) :
  list_ascii_of_string (a +:+ b)
  = (list_ascii_of_string a ++ list_ascii_of_string b)%list.
Proof.
  induction a as [|c a IH].
  - reflexivity.
  - rewrite append_cons. cbn [list_ascii_of_string app]. now rewrite IH.
Qed.

Lemma matchTags_split (before after : list ascii) (c : ascii)
    (current : option string) :
  isWordChar c = false -> Ascii.eqb c "@" = false ->
  matchTags (before ++ c :: after) current
  = (matchTags before current ++ matchTags after None)%list.
Proof.
  intros Hword Hat. revert current.
  induction before as [|x before IH]; intros current; cbn [app matchTags].
  - rewrite Hword, Hat. destruct current; [reflexivity|]. reflexivity.
  - destruct current as [token|].
    + destruct (isWordChar x); [apply IH|].
      rewrite IH. now rewrite app_assoc.
    + apply IH.
Qed.

(** X2: a character that is neither a word character nor [@] separates the
    tags of what is before it from the tags of what is after it: the tags of
    the whole title are those of the first part, then those of the second. *)
Theorem extractTagsFromTitle_split (before after : string) (c : ascii) :
  isWordChar c = false -> Ascii.eqb c "@" = false ->
  extractTagsFromTitle (before +:+ String c after)
  = (extractTagsFromTitle before ++ extractTagsFromTitle after)%list.
Proof.
  intros Hword Hat. unfold extractTagsFromTitle.
  rewrite list_ascii_of_append. cbn [list_ascii_of_string].
  now apply matchTags_split.
Qed.

Lemma extractTagsFromTitle_split_witness :
  extractTagsFromTitle ("login @smoke" +:+ String " " "works @auth")
  = ["@smoke"; "@auth"].
Proof.
  rewrite (extractTagsFromTitle_split "login @smoke" "works @auth" " ");
    reflexivity.
Defined.

(** X3: a title in which no [@] occurs has no tags: the result is the empty
    list, not [null]. *)
Theorem extractTagsFromTitle_without_at (title : string) :
  Forall (fun c => Ascii.eqb c "@" = false) (list_ascii_of_string title) ->
  extractTagsFromTitle title = [].
Proof.
  unfold extractTagsFromTitle.
  induction 1 as [|c rest Hc _ IH]; cbn [matchTags].
  - reflexivity.
  - now rewrite Hc.
Qed.

Lemma extractTagsFromTitle_without_at_witness :
  extractTagsFromTitle "login works" = [].
Proof.
  apply extractTagsFromTitle_without_at.
  repeat constructor.
Defined.

(** ** The optional fields of a record *)

Lemma updateCtrfTestResultsFromTestResult_fields (host : Host.t)
    (tc : TestCase.t) (r : TestResult.t) (this this' : Reporter.t) :
  minimalMode this = Some false ->
  updateCtrfTestResultsFromTestResult host tc (Some r) this = Returns tt this' ->
  exists test,
    Reporter.tests this' = (Reporter.tests this ++ [test])%list
    /\ CtrfTest.start test = Some (updateStart (TestResult.startTime r))
    /\ CtrfTest.stop test
       = Some (calculateStopTime (TestResult.startTime r) (TestResult.duration r))
    /\ CtrfTest.rawStatus test = Some (TestResult.status r)
    /\ CtrfTest.tags test = Some (extractTagsFromTitle (TestCase.title tc))
    /\ CtrfTest.type test
       = Some (ReporterConfigOptions.testType (Reporter.reporterConfigOptions this)
               ?? "e2e")
    /\ CtrfTest.filePath test = Some (TestCase.location_file tc)
    /\ CtrfTest.retry test = Some (TestResult.retry r)
    /\ CtrfTest.flake test
       = Some (String.eqb (TestResult.status r) "passed"
               && (0 <? TestResult.retry r)%Z)
    /\ CtrfTest.status test = mapPlaywrightStatusToCtrf (TestResult.status r)
    /\ CtrfTest.browser test = default None (browserValue (parsedMetadata host r)).
Proof.
  intros Hminimal. unfold minimalMode in Hminimal.
  unfold updateCtrfTestResultsFromTestResult, bind, get. cbn beta.
  rewrite Hminimal, browserOf_outcome.
  destruct (browserValue (parsedMetadata host r)) as [browser|]; [|discriminate].
  unfold ret, modify. intros H. injection H as <-.
  eexists. split; [reflexivity|]. cbn. repeat split; reflexivity.
Qed.

Lemma passed_only_from_passed (testStatus : string) :
  mapPlaywrightStatusToCtrf testStatus = passed <-> testStatus = "passed".
Proof.
  unfold mapPlaywrightStatusToCtrf. split.
  - destruct (String.eqb_spec testStatus "passed") as [->|_]; [reflexivity|].
    repeat (destruct (String.eqb testStatus _); try discriminate).
  - intros ->. reflexivity.
Qed.

(** X4: in non-minimal mode the flake field of a record is set, and it is
    true exactly when the record's (normalized) status is passed and the
    attempt's retry number is above 0. *)
Theorem flake_iff_passed_after_retry (host : Host.t) (tc : TestCase.t)
    (r : TestResult.t) (this this' : Reporter.t) :
  minimalMode this = Some false ->
  updateCtrfTestResultsFromTestResult host tc (Some r) this = Returns tt this' ->
  exists test flake,
    Reporter.tests this' = (Reporter.tests this ++ [test])%list
    /\ CtrfTest.flake test = Some flake
    /\ (flake = true <-> CtrfTest.status test = passed /\ 0 < TestResult.retry r).
Proof.
  intros Hminimal Hreturns.
  destruct (updateCtrfTestResultsFromTestResult_fields host tc r this this'
              Hminimal Hreturns)
    as (test & Htests & _ & _ & _ & _ & _ & _ & _ & Hflake & Hstatus & _).
  exists test. eexists. split; [exact Htests|]. split; [exact Hflake|].
  rewrite Hstatus, passed_only_from_passed, andb_true_iff, Z.ltb_lt.
  now rewrite String.eqb_eq.
Qed.

Lemma flake_iff_passed_after_retry_witness :
  let this := constructor ReporterConfigOptions.none in
  let r := Examples.passedOnRetry in
  let this' :=
    thisAfter (updateCtrfTestResultsFromTestResult Reference.host
                 (Examples.testCase [r]) (Some r) this) in
  exists test,
    Reporter.tests this' = [test] /\ CtrfTest.flake test = Some true.
Proof.
  intros this r this'.
  destruct (flake_iff_passed_after_retry Reference.host (Examples.testCase [r])
              r this this')
    as (test & flake & Htests & Hflake & Hiff).
  - reflexivity.
  - vm_compute. reflexivity.
  - exists test. split; [exact Htests|]. rewrite Hflake. f_equal.
    apply Hiff. unfold this' in Htests. vm_compute in Htests.
    injection Htests as <-. split; [reflexivity | reflexivity].
Defined.

(** X5: in non-minimal mode the start and stop fields of a record are whole
    seconds: start is the second in which the attempt's start time (in
    milliseconds) falls, stop the second in which start time plus duration
    falls; with a non-negative duration stop is not before start. *)
Theorem record_times_are_whole_seconds (host : Host.t) (tc : TestCase.t)
    (r : TestResult.t) (this this' : Reporter.t) :
  minimalMode this = Some false ->
  updateCtrfTestResultsFromTestResult host tc (Some r) this = Returns tt this' ->
  exists test start stop,
    Reporter.tests this' = (Reporter.tests this ++ [test])%list
    /\ CtrfTest.start test = Some start /\ CtrfTest.stop test = Some stop
    /\ 1000 * start <= TestResult.startTime r < 1000 * start + 1000
    /\ 1000 * stop <= TestResult.startTime r + TestResult.duration r
       < 1000 * stop + 1000
    /\ (0 <= TestResult.duration r -> start <= stop).
Proof.
  intros Hminimal Hreturns.
  destruct (updateCtrfTestResultsFromTestResult_fields host tc r this this'
              Hminimal Hreturns)
    as (test & Htests & Hstart & Hstop & _).
  exists test. do 2 eexists. split; [exact Htests|].
  split; [exact Hstart|]. split; [exact Hstop|].
  unfold updateStart, calculateStopTime.
  pose proof (Z.div_mod (TestResult.startTime r) 1000 ltac:(lia)) as H1.
  pose proof (Z.mod_pos_bound (TestResult.startTime r) 1000 ltac:(lia)) as H2.
  pose proof (Z.div_mod (TestResult.startTime r + TestResult.duration r) 1000
                ltac:(lia)) as H3.
  pose proof (Z.mod_pos_bound (TestResult.startTime r + TestResult.duration r)
                1000 ltac:(lia)) as H4.
  repeat split; lia.
Qed.

Lemma record_times_are_whole_seconds_witness :
  let this := constructor ReporterConfigOptions.none in
  let r := Examples.passedOnRetry in
  let this' :=
    thisAfter (updateCtrfTestResultsFromTestResult Reference.host
                 (Examples.testCase [r]) (Some r) this) in
  exists test start stop,
    Reporter.tests this' = [test]
    /\ CtrfTest.start test = Some start /\ CtrfTest.stop test = Some stop
    /\ start <= stop.
Proof.
  intros this r this'.
  destruct (record_times_are_whole_seconds Reference.host (Examples.testCase [r])
              r this this')
    as (test & start & stop & Htests & Hstart & Hstop & _ & _ & Horder).
  - reflexivity.
  - vm_compute. reflexivity.
  - exists test, start, stop. repeat split; try assumption.
    apply Horder. vm_compute. discriminate.
Defined.

(** X6: in non-minimal mode a record has a browser field exactly when the
    value parsed from the first [metadata.json] attachment has a [name] or
    a [version] property. *)
Theorem browser_present_iff_name_or_version (host : Host.t) (tc : TestCase.t)
    (r : TestResult.t) (this this' : Reporter.t) :
  minimalMode this = Some false ->
  updateCtrfTestResultsFromTestResult host tc (Some r) this = Returns tt this' ->
  exists test,
    Reporter.tests this' = (Reporter.tests this ++ [test])%list
    /\ (CtrfTest.browser test <> None
        <-> optionalGet (parsedMetadata host r) "name" <> None
            \/ optionalGet (parsedMetadata host r) "version" <> None).
Proof.
  intros Hminimal Hreturns.
  pose proof (updateCtrfTestResultsFromTestResult_full host tc r this Hminimal) as H.
  cbn zeta in H.
  destruct (browserValue (parsedMetadata host r)) as [browser|] eqn:Hbrowser;
    [|rewrite H in Hreturns; discriminate Hreturns].
  destruct H as (test & Heq & _ & _ & _ & _ & _ & _ & _ & Hb).
  rewrite Heq in Hreturns. injection Hreturns as <-.
  exists test. split; [reflexivity|]. rewrite Hb.
  unfold browserValue in Hbrowser.
  destruct (optionalGet (parsedMetadata host r) "name") as [name|];
    destruct (optionalGet (parsedMetadata host r) "version") as [version|];
    cbn [isDefined orb] in Hbrowser.
  - destruct (templateToString (Some name)), (templateToString (Some version));
      try discriminate Hbrowser.
    injection Hbrowser as <-. split; [intros _; left|]; congruence.
  - destruct (templateToString (Some name)); try discriminate Hbrowser.
    cbn in Hbrowser. injection Hbrowser as <-.
    split; [intros _; left|]; congruence.
  - cbn in Hbrowser. destruct (ToString version); try discriminate Hbrowser.
    injection Hbrowser as <-. split; [intros _; right|]; congruence.
  - injection Hbrowser as <-. split; [congruence | intros [?|?]; congruence].
Qed.

Lemma browser_present_iff_name_or_version_witness :
  let this := constructor ReporterConfigOptions.none in
  let r := Examples.withMetadata Examples.nameAndVersion in
  let this' :=
    thisAfter (updateCtrfTestResultsFromTestResult Reference.host
                 (Examples.testCase [r]) (Some r) this) in
  exists test, Reporter.tests this' = [test] /\ CtrfTest.browser test <> None.
Proof.
  intros this r this'.
  destruct (browser_present_iff_name_or_version Reference.host
              (Examples.testCase [r]) r this this')
    as (test & Htests & Hiff).
  - reflexivity.
  - vm_compute. reflexivity.
  - exists test. split; [exact Htests|]. apply Hiff. left.
    vm_compute. discriminate.
Defined.

(** ** Only the last attempt counts *)

(** X7: processing a test case looks at its last attempt only: whatever
    attempts came before it, the outcome is the one for the test case with
    that single attempt. *)
Theorem processTest_last_attempt_only (host : Host.t)
    (title file : string) (parent : SuiteRef.t)
    (earlier : list TestResult.t) (r : TestResult.t) (this : Reporter.t) :
  processTest host (TestCase.mk title parent file (earlier ++ [r])) this
  = processTest host (TestCase.mk title parent file [r]) this.
Proof.
  unfold processTest. cbn [TestCase.results].
  rewrite index_last. reflexivity.
Qed.

(** ** What processing leaves alone *)

Lemma updateCtrfTestResultsFromTestResult_shape (host : Host.t)
    (tc : TestCase.t) (latest : option TestResult.t) (this : Reporter.t) :
  match updateCtrfTestResultsFromTestResult host tc latest this with
  | Returns _ this' =>
      exists test lines,
        this' = Reporter.with_tests (Reporter.tests this ++ [test])
                  (Reporter.printAll lines this)
  | Throws _ this' => exists lines, this' = Reporter.printAll lines this
  end.
Proof.
  destruct latest as [r|]; [|exists []; cbn; now rewrite printAll_nil].
  destruct (decide (minimalMode this = Some false)) as [Hfull|Hminimal].
  - pose proof (updateCtrfTestResultsFromTestResult_full host tc r this Hfull) as H.
    cbn zeta in H.
    destruct (browserValue (parsedMetadata host r)) as [browser|].
    + destruct H as (test & -> & _). eauto.
    + rewrite H. eauto.
  - destruct (updateCtrfTestResultsFromTestResult_minimal host tc r this Hminimal)
      as (test & -> & _).
    exists test, []. now rewrite printAll_nil.
Qed.

Lemma updateSummaryFromTestResult_shape (r : TestResult.t) (this : Reporter.t) :
  exists summary,
    updateSummaryFromTestResult (Some r) this
    = Returns tt (Reporter.with_summary summary this)
    /\ forall key, isCounterName key = false ->
                   summary !! key = Reporter.summary this !! key.
Proof.
  unfold updateSummaryFromTestResult, bind, modify.
  assert (Hstate : forall state key, isCounterName key = false ->
                                     CtrfTestState_key state <> key).
  { intros state key Hkey <-. destruct state; discriminate Hkey. }
  assert (Hkeep : forall name key summary, name <> key ->
                    increment name summary !! key = summary !! key).
  { intros name key summary Hne. unfold increment. now rewrite lookup_insert_ne. }
  set (counted := increment "tests" (Reporter.summary this)).
  set (bucket := CtrfTestState_key (mapPlaywrightStatusToCtrf (TestResult.status r))).
  change (Reporter.summary (Reporter.with_summary counted this)) with counted.
  assert (Htests : forall key, isCounterName key = false -> "tests" <> key).
  { intros key Hkey <-. discriminate Hkey. }
  assert (Hother : forall key, isCounterName key = false -> "other" <> key).
  { intros key Hkey <-. discriminate Hkey. }
  destruct (counted !! bucket).
  - exists (increment bucket counted). split; [reflexivity|].
    intros key Hkey. unfold counted, bucket. rewrite !Hkeep; auto.
  - exists (increment "other" counted). split; [reflexivity|].
    intros key Hkey. unfold counted. rewrite !Hkeep; auto.
Qed.

(** A property of the reporter that neither a new record, nor a new summary
    nor printing can change is kept by the traversal. *)
Lemma processTest_keeps_stable (host : Host.t) (P : Reporter.t -> Prop)
    (tc : TestCase.t) :
  (forall this tests, P this -> P (Reporter.with_tests tests this)) ->
  (forall this summary, P this -> P (Reporter.with_summary summary this)) ->
  (forall this lines, P this -> P (Reporter.printAll lines this)) ->
  keeps P (processTest host tc).
Proof.
  intros Htests Hsummary Hprint this HP. unfold processTest, bind.
  pose proof (updateCtrfTestResultsFromTestResult_shape host tc
                (index (TestCase.results tc)
                   (Z.of_nat (length (TestCase.results tc)) - 1)) this) as Hshape.
  destruct (updateCtrfTestResultsFromTestResult host tc _ this) as [[] this1|e this1].
  - destruct Hshape as (test & lines & ->).
    destruct (index (TestCase.results tc) _) as [r|].
    + destruct (updateSummaryFromTestResult_shape r
                  (Reporter.with_tests (Reporter.tests this ++ [test])
                     (Reporter.printAll lines this))) as (summary & -> & _).
      cbn [thisAfter]. auto.
    + cbn. auto.
  - destruct Hshape as (lines & ->). cbn [thisAfter]. auto.
Qed.

Lemma processSuite_keeps (host : Host.t) (P : Reporter.t -> Prop) (suite : Suite.t) :
  (forall tc, keeps P (processTest host tc)) -> keeps P (processSuite host suite).
Proof.
  intros Htest.
  induction suite as [title tests suites IH] using Suite_induction.
  cbn [processSuite Suite.tests Suite.suites].
  apply keeps_bind.
  - apply keeps_forOf, Forall_forall. intros tc _. apply Htest.
  - intros _. apply keeps_forOf, IH.
Qed.

Lemma processSuite_keeps_frame (host : Host.t) (suite : Suite.t)
    (this : Reporter.t) :
  frame (thisAfter (processSuite host suite this)) = frame this.
Proof.
  apply (processSuite_keeps host (fun s => frame s = frame this));
    [|reflexivity].
  intros tc. apply processTest_keeps_stable; intros s x Hs; exact Hs.
Qed.

Lemma processSuite_keeps_other_keys (host : Host.t) (suite : Suite.t)
    (this : Reporter.t) (key : string) :
  isCounterName key = false ->
  Reporter.summary (thisAfter (processSuite host suite this)) !! key
  = Reporter.summary this !! key.
Proof.
  intros Hkey.
  apply (processSuite_keeps host
           (fun s => Reporter.summary s !! key = Reporter.summary this !! key));
    [|reflexivity].
  intros tc s Hs. unfold processTest, bind.
  pose proof (updateCtrfTestResultsFromTestResult_shape host tc
                (index (TestCase.results tc)
                   (Z.of_nat (length (TestCase.results tc)) - 1)) s) as Hshape.
  destruct (updateCtrfTestResultsFromTestResult host tc _ s) as [[] s1|e s1].
  - destruct Hshape as (test & lines & ->).
    destruct (index (TestCase.results tc) _) as [r|].
    + destruct (updateSummaryFromTestResult_shape r
                  (Reporter.with_tests (Reporter.tests s ++ [test])
                     (Reporter.printAll lines s))) as (summary & -> & Hsame).
      cbn [thisAfter]. cbn. rewrite (Hsame key Hkey). exact Hs.
    + cbn. unfold increment. rewrite lookup_insert_ne; [exact Hs|].
      intros <-. discriminate Hkey.
  - destruct Hshape as (lines & ->). exact Hs.
Qed.

Lemma processSuite_frame (host : Host.t) (suite : Suite.t) (this : Reporter.t) :
  let after := thisAfter (processSuite host suite this) in
  frame after = frame this
  /\ forall key, isCounterName key = false ->
                 Reporter.summary after !! key = Reporter.summary this !! key.
Proof.
  cbn zeta. split.
  - apply processSuite_keeps_frame.
  - intros key. apply processSuite_keeps_other_keys.
Qed.

(** X8: the traversal of the suites, however it ends, changes nothing of
    the reporter but the records, the console and the six counters of the
    summary: the configuration, the captured suite, the environment, the
    written files and every other property of the summary (as [start] and
    [stop]) stay as they were. *)
Theorem processSuite_touches_counters_and_records_only (host : Host.t)
    (suite : Suite.t) (this : Reporter.t) :
  let after := thisAfter (processSuite host suite this) in
  frame after = frame this
  /\ forall key, isCounterName key = false ->
                 Reporter.summary after !! key = Reporter.summary this !! key.
Proof.
  cbn zeta. split.
  - apply processSuite_keeps_frame.
  - intros key Hkey. now apply processSuite_keeps_other_keys.
Qed.

(** ** The beginning of a run *)

Lemma setEnvironmentDetails_overlays (o : ReporterConfigOptions.t) (this : Reporter.t) :
  setEnvironmentDetails o this
  = Returns tt
      (Reporter.with_ctrfEnvironment
         (overlayEnvironment o (Reporter.ctrfEnvironment this)) this).
Proof.
  destruct this as [report [a b c d e f g] options suite startTime console files].
  destruct o as [? ? ? ? ? [?|] [?|] [?|] [?|] [?|] [?|] [?|]]; reflexivity.
Qed.

Lemma onBegin_fresh (host : Host.t) (config : ReporterConfigOptions.t)
    (now : Z) (suite : Suite.t) :
  onBegin host now suite (constructor config)
  = match (if Host.existsSync host (configuredDir config) then None
           else Host.mkdirSync host (configuredDir config)) with
    | None => Returns tt (begun config now suite)
    | Some e =>
        Throws e
          (Reporter.with_summary
             (<["start" := now]> (Reporter.summary (constructor config)))
             (Reporter.with_startTime (Some now)
                (Reporter.with_suite (Some suite) (constructor config))))
    end.
Proof.
  unfold onBegin, bind, modify, get. cbn beta iota.
  change (ReporterConfigOptions.outputDir
            (Reporter.reporterConfigOptions
               (Reporter.with_summary
                  (<["start" := now]>
                     (Reporter.summary
                        (Reporter.with_startTime (Some now)
                           (Reporter.with_suite (Some suite) (constructor config)))))
                  (Reporter.with_startTime (Some now)
                     (Reporter.with_suite (Some suite) (constructor config)))))
          ?? defaultOutputDir)
    with (configuredDir config).
  destruct (Host.existsSync host (configuredDir config)); cbn [negb].
  - unfold ret at 1. rewrite setEnvironmentDetails_overlays.
    destruct config as [? ? ? ? ? [?|] [?|] [?|] [?|] [?|] [?|] [?|]]; reflexivity.
  - destruct (Host.mkdirSync host (configuredDir config)) as [e|]; [reflexivity|].
    unfold ret at 1. rewrite setEnvironmentDetails_overlays.
    destruct config as [? ? ? ? ? [?|] [?|] [?|] [?|] [?|] [?|] [?|]]; reflexivity.
Qed.

(** X9: [onBegin] on a fresh reporter throws exactly when the output
    directory does not exist and creating it throws, and then it throws that
    error; when the directory exists, or is created, it returns. *)
Theorem onBegin_throws_iff_mkdir_fails (host : Host.t)
    (config : ReporterConfigOptions.t) (now : Z) (suite : Suite.t) (e : JsError) :
  (exists this', onBegin host now suite (constructor config) = Throws e this')
  <-> Host.existsSync host (configuredDir config) = false
      /\ Host.mkdirSync host (configuredDir config) = Some e.
Proof.
  rewrite onBegin_fresh. split.
  - intros (this' & H).
    destruct (Host.existsSync host (configuredDir config)); [discriminate H|].
    destruct (Host.mkdirSync host (configuredDir config)) as [e'|];
      [|discriminate H].
    injection H as -> _. split; reflexivity.
  - intros [-> ->]. eexists. reflexivity.
Qed.

(** X10: when [onBegin] returns on a fresh reporter, the report has an
    environment block exactly when the configuration supplies at least one
    of the seven environment fields, and the block then holds the supplied
    fields and no other. *)
Theorem onBegin_attaches_supplied_environment (host : Host.t)
    (config : ReporterConfigOptions.t) (now : Z) (suite : Suite.t)
    (this' : Reporter.t) :
  onBegin host now suite (constructor config) = Returns tt this' ->
  CtrfReport.environment (Reporter.ctrfReport this')
  = (if hasEnvironmentDetails (environmentOf config)
     then Some (environmentOf config) else None)
  /\ (CtrfReport.environment (Reporter.ctrfReport this') = None
      <-> environmentOf config = CtrfEnvironment.empty).
Proof.
  rewrite onBegin_fresh.
  destruct (if Host.existsSync host (configuredDir config) then None
            else Host.mkdirSync host (configuredDir config)); [discriminate|].
  intros H. injection H as <-. split; [reflexivity|].
  cbn [begun Reporter.ctrfReport CtrfReport.environment].
  destruct config as [? ? ? ? ? [?|] [?|] [?|] [?|] [?|] [?|] [?|]];
    cbn; split; intros H; try discriminate H; reflexivity.
Qed.

Lemma onBegin_attaches_supplied_environment_witness :
  let config :=
    ReporterConfigOptions.mk None None None None None
      (Some "MyApp") None (Some "linux") None None None None in
  exists this',
    onBegin Reference.host 0 (Examples.rootWith []) (constructor config)
    = Returns tt this'
    /\ CtrfReport.environment (Reporter.ctrfReport this')
       = Some (CtrfEnvironment.mk (Some "MyApp") None (Some "linux")
                 None None None None).
Proof.
  intros config. eexists. split; [vm_compute; reflexivity|].
  apply (onBegin_attaches_supplied_environment Reference.host config 0
           (Examples.rootWith [])).
  vm_compute. reflexivity.
Defined.

(** X11: when [onBegin] returns on a fresh reporter, it has captured the
    suite and the start time, the summary's [start] is that time, there are
    no records yet, and the configured file name has become one that ends
    in [.json] while the output directory and the modes are as
    configured. *)
Theorem onBegin_captures_run (host : Host.t)
    (config : ReporterConfigOptions.t) (now : Z) (suite : Suite.t)
    (this' : Reporter.t) :
  onBegin host now suite (constructor config) = Returns tt this' ->
  let options := Reporter.reporterConfigOptions this' in
  Reporter.suite this' = Some suite
  /\ Reporter.startTime this' = Some now
  /\ Reporter.summary this' !! "start" = Some now
  /\ Reporter.tests this' = []
  /\ ReporterConfigOptions.outputFile options = Some (configuredFile config)
  /\ endsWith (configuredFile config) ".json" = true
  /\ ReporterConfigOptions.outputDir options = Some (configuredDir config)
  /\ ReporterConfigOptions.minimal options
     = Some (ReporterConfigOptions.minimal config ?? false)
  /\ ReporterConfigOptions.screenshot options
     = Some (ReporterConfigOptions.screenshot config ?? false)
  /\ ReporterConfigOptions.testType options
     = Some (ReporterConfigOptions.testType config ?? "e2e").
Proof.
  rewrite onBegin_fresh.
  destruct (if Host.existsSync host (configuredDir config) then None
            else Host.mkdirSync host (configuredDir config)); [discriminate|].
  intros H. injection H as <-. cbn zeta.
  split; [reflexivity|]. split; [reflexivity|].
  split; [apply lookup_insert_eq|]. split; [reflexivity|].
  split; [reflexivity|].
  split; [apply endsWith_normalizedFilename|].
  repeat split; reflexivity.
Qed.

Lemma onBegin_captures_run_witness :
  let config :=
    ReporterConfigOptions.mk (Some "custom") None None None None
      None None None None None None None in
  exists this',
    onBegin Reference.host 5 (Examples.rootWith []) (constructor config)
    = Returns tt this'
    /\ ReporterConfigOptions.outputFile (Reporter.reporterConfigOptions this')
       = Some "custom.json"
    /\ Reporter.summary this' !! "start" = Some 5.
Proof.
  intros config. eexists. split; [vm_compute; reflexivity|].
  destruct (onBegin_captures_run Reference.host config 5 (Examples.rootWith [])
              (thisAfter (onBegin Reference.host 5 (Examples.rootWith [])
                            (constructor config))))
    as (_ & _ & Hstart & _ & Hfile & _).
  - vm_compute. reflexivity.
  - split; [exact Hfile | exact Hstart].
Defined.

(** ** The end of a run *)

Lemma writeReportToFile_outcome (host : Host.t) (data : CtrfReport.t)
    (this : Reporter.t) :
  let options := Reporter.reporterConfigOptions this in
  let filePath :=
    Host.path_join host
      (ReporterConfigOptions.outputDir options ?? defaultOutputDir)
      (ReporterConfigOptions.outputFile options ?? defaultOutputFile) in
  writeReportToFile host data this
  = Returns tt
      match Host.writeFileSync host filePath data with
      | None =>
          Reporter.print
            (console_log (reporterName +:+ ": successfully written ctrf json to "
                          +:+ (ReporterConfigOptions.outputFile options ?? "undefined")))
            (Reporter.write filePath data this)
      | Some error =>
          Reporter.print
            (console_error ("Error writing ctrf json report:, " +:+ error)) this
      end.
Proof.
  cbn zeta. unfold writeReportToFile, bind, get, modify. cbn beta iota.
  destruct (Host.writeFileSync host _ data); reflexivity.
Qed.

(** The reporter at the moment the traversal starts in [onEnd], and at the
    moment the report is written. *)
Lemma onEnd_outcome (host : Host.t) (now : Z) (suite : Suite.t) (this : Reporter.t) :
  Reporter.suite this = Some suite ->
  let stopped :=
    Reporter.with_summary (<["stop" := now]> (Reporter.summary this)) this in
  onEnd host now this
  = match processSuite host suite stopped with
    | Returns _ walked =>
        let counted :=
          Reporter.with_summary
            (<["suites" := countSuites suite]> (Reporter.summary walked)) walked in
        writeReportToFile host (Reporter.ctrfReport counted) counted
    | Throws e walked => Throws e walked
    end.
Proof.
  intros Hsuite. cbn zeta. unfold onEnd, bind at 1 2, modify at 1, get at 1.
  cbn beta iota.
  change (Reporter.suite
            (Reporter.with_summary (<["stop" := now]> (Reporter.summary this)) this))
    with (Reporter.suite this).
  rewrite Hsuite. unfold bind.
  destruct (processSuite host suite _) as [[] walked|e walked]; reflexivity.
Qed.

(** X12: [onEnd] throws only when the traversal of the suites throws, and
    with the same error; nothing is written then: the files are those there
    were before.  A failing write is never thrown. *)
Theorem onEnd_throws_only_from_traversal (host : Host.t) (now : Z)
    (this this' : Reporter.t) (e : JsError) :
  onEnd host now this = Throws e this' ->
  exists suite,
    Reporter.suite this = Some suite
    /\ processSuite host suite
         (Reporter.with_summary (<["stop" := now]> (Reporter.summary this)) this)
       = Throws e this'
    /\ Reporter.files this' = Reporter.files this.
Proof.
  destruct (Reporter.suite this) as [suite|] eqn:Hsuite.
  - rewrite (onEnd_outcome host now suite this Hsuite). cbn zeta.
    pose proof (processSuite_frame host suite
                  (Reporter.with_summary (<["stop" := now]> (Reporter.summary this))
                     this)) as [Hframe _].
    destruct (processSuite host suite _) as [[] walked|e' walked] eqn:Hwalk.
    + rewrite writeReportToFile_outcome. discriminate.
    + intros H. injection H as -> ->. exists suite.
      split; [reflexivity|]. split; [exact Hwalk|].
      cbn [thisAfter] in Hframe. unfold frame in Hframe.
      now inversion Hframe.
  - unfold onEnd, bind, modify, get. cbn beta iota.
    change (Reporter.suite
              (Reporter.with_summary (<["stop" := now]> (Reporter.summary this)) this))
      with (Reporter.suite this).
    rewrite Hsuite. unfold ret. rewrite writeReportToFile_outcome. discriminate.
Qed.

Lemma onEnd_throws_only_from_traversal_witness :
  let suite := Examples.rootWith [Examples.testCase []] in
  let this := begun ReporterConfigOptions.none 0 suite in
  exists e this',
    onEnd Reference.host 1 this = Throws e this'
    /\ Reporter.files this' = [].
Proof.
  intros suite this.
  exists (TypeError "Cannot read properties of undefined (reading 'status')").
  eexists. split; [vm_compute; reflexivity|].
  destruct (onEnd_throws_only_from_traversal Reference.host 1 this
              (thisAfter (onEnd Reference.host 1 this))
              (TypeError "Cannot read properties of undefined (reading 'status')"))
    as (suite' & _ & _ & Hfiles).
  - vm_compute. reflexivity.
  - exact Hfiles.
Defined.

(** A returning run, taken apart. *)
Lemma run_returns (host : Host.t) (config : ReporterConfigOptions.t)
    (begin finish : Z) (suite : Suite.t) (this' : Reporter.t) :
  run host config begin finish suite = Returns tt this' ->
  let stopped :=
    Reporter.with_summary
      (<["stop" := finish]> (Reporter.summary (begun config begin suite)))
      (begun config begin suite) in
  exists walked,
    processSuite host suite stopped = Returns tt walked
    /\ let counted :=
         Reporter.with_summary
           (<["suites" := countSuites suite]> (Reporter.summary walked)) walked in
       writeReportToFile host (Reporter.ctrfReport counted) counted
       = Returns tt this'.
Proof.
  unfold run, bind. rewrite onBegin_fresh.
  destruct (if Host.existsSync host (configuredDir config) then None
            else Host.mkdirSync host (configuredDir config)); [discriminate|].
  rewrite (onEnd_outcome host finish suite (begun config begin suite) eq_refl).
  cbn zeta.
  destruct (processSuite host suite _) as [[] walked|e walked]; [|discriminate].
  intros H. exists walked. split; [reflexivity | exact H].
Qed.

(** ** What a returning run leaves in the report *)

Lemma writeReportToFile_keeps_report (host : Host.t) (data : CtrfReport.t)
    (this this' : Reporter.t) :
  writeReportToFile host data this = Returns tt this' ->
  Reporter.ctrfReport this' = Reporter.ctrfReport this.
Proof.
  rewrite writeReportToFile_outcome. cbn zeta. intros H. injection H as <-.
  destruct (Host.writeFileSync host _ data); reflexivity.
Qed.

(** X13: after a returning run the summary's [start] is the time at which
    [onBegin] was called and its [stop] the time at which [onEnd] was
    called, both as given (milliseconds), whatever was processed in
    between. *)
Theorem run_records_begin_and_end (host : Host.t)
    (config : ReporterConfigOptions.t) (begin finish : Z) (suite : Suite.t)
    (this' : Reporter.t) :
  run host config begin finish suite = Returns tt this' ->
  Reporter.summary this' !! "start" = Some begin
  /\ Reporter.summary this' !! "stop" = Some finish.
Proof.
  intros Hrun. apply run_returns in Hrun. cbn zeta in Hrun.
  destruct Hrun as (walked & Hwalk & Hwrite).
  apply writeReportToFile_keeps_report in Hwrite.
  unfold Reporter.summary at 1 2. rewrite Hwrite.
  pose proof (processSuite_frame host suite
                (Reporter.with_summary
                   (<["stop" := finish]> (Reporter.summary (begun config begin suite)))
                   (begun config begin suite))) as [_ Hkeys].
  cbn zeta in Hkeys. rewrite Hwalk in Hkeys. cbn [thisAfter] in Hkeys.
  cbn [Reporter.with_summary Reporter.with_ctrfReport Reporter.ctrfReport
       CtrfReport.summary].
  rewrite !lookup_insert_ne by discriminate.
  split.
  - rewrite (Hkeys "start" eq_refl). cbn.
    rewrite lookup_insert_ne by discriminate. apply lookup_insert_eq.
  - rewrite (Hkeys "stop" eq_refl). cbn. apply lookup_insert_eq.
Qed.

Lemma run_records_begin_and_end_witness :
  exists this',
    run Reference.host ReporterConfigOptions.none 1700000000000 1700000002000
      Examples.threeTests = Returns tt this'
    /\ Reporter.summary this' !! "start" = Some 1700000000000
    /\ Reporter.summary this' !! "stop" = Some 1700000002000.
Proof.
  eexists. split; [vm_compute; reflexivity|].
  apply (run_records_begin_and_end Reference.host ReporterConfigOptions.none
           1700000000000 1700000002000 Examples.threeTests).
  vm_compute. reflexivity.
Defined.

(** X14: a returning run has tried to write once, to the path joined from
    the configured directory ([ctrf] by default) and the configured file
    name made to end in [.json] ([ctrf-report.json] by default).  When the
    write goes through, the one file written is the final report; when it
    throws, no file is written and the error is the last line printed. *)
Theorem run_writes_final_report (host : Host.t)
    (config : ReporterConfigOptions.t) (begin finish : Z) (suite : Suite.t)
    (this' : Reporter.t) :
  run host config begin finish suite = Returns tt this' ->
  let filePath :=
    Host.path_join host (configuredDir config) (configuredFile config) in
  match Host.writeFileSync host filePath (Reporter.ctrfReport this') with
  | None => Reporter.files this' = [(filePath, Reporter.ctrfReport this')]
  | Some error =>
      Reporter.files this' = []
      /\ last (Reporter.console this')
         = Some (console_error ("Error writing ctrf json report:, " +:+ error))
  end.
Proof.
  intros Hrun. apply run_returns in Hrun. cbn zeta in Hrun.
  destruct Hrun as (walked & Hwalk & Hwrite).
  pose proof (writeReportToFile_keeps_report _ _ _ _ Hwrite) as Hreport.
  pose proof (processSuite_frame host suite
                (Reporter.with_summary
                   (<["stop" := finish]> (Reporter.summary (begun config begin suite)))
                   (begun config begin suite))) as [Hframe _].
  cbn zeta in Hframe. rewrite Hwalk in Hframe. cbn [thisAfter] in Hframe.
  unfold frame in Hframe. injection Hframe as Hoptions Hfiles _ _ _ _ _.
  rewrite writeReportToFile_outcome in Hwrite. cbn zeta in Hwrite.
  cbn [Reporter.with_summary Reporter.with_ctrfReport Reporter.reporterConfigOptions
       Reporter.ctrfReport] in Hwrite, Hreport.
  rewrite Hoptions in Hwrite.
  cbn zeta. rewrite Hreport.
  cbn [Reporter.with_summary Reporter.with_ctrfReport Reporter.ctrfReport].
  cbn [ReporterConfigOptions.outputDir ReporterConfigOptions.outputFile nullish]
    in Hwrite.
  unfold configuredDir, configuredFile.
  destruct (Host.writeFileSync host _ _) as [error|];
    injection Hwrite as <-; cbn; rewrite Hfiles; cbn.
  - split; [reflexivity|]. apply last_snoc.
  - reflexivity.
Qed.

Lemma run_writes_final_report_witness :
  exists this',
    run Reference.host ReporterConfigOptions.none 0 1 Examples.threeTests
    = Returns tt this'
    /\ Reporter.files this' = [("ctrf/ctrf-report.json", Reporter.ctrfReport this')].
Proof.
  eexists. split; [vm_compute; reflexivity|].
  apply (run_writes_final_report Reference.host ReporterConfigOptions.none 0 1
           Examples.threeTests).
  vm_compute. reflexivity.
Defined.

(** ** The records of a run *)

Lemma index_last_inv {A : Type} (l : list A) (x : A) :
  index l (Z.of_nat (length l) - 1) = Some x -> exists earlier, l = (earlier ++ [x])%list.
Proof.
  destruct l as [|a l] using rev_ind; [discriminate|].
  rewrite index_last. intros H. injection H as <-. eauto.
Qed.

(** Every record made satisfies [Q] when the options satisfy [C]; then the
    traversal keeps "the options satisfy [C] and all records satisfy [Q]". *)
Lemma processSuite_keeps_records (host : Host.t)
    (C : ReporterConfigOptions.t -> Prop) (Q : CtrfTest.t -> Prop)
    (suite : Suite.t) :
  (forall tc r this this',
     C (Reporter.reporterConfigOptions this) ->
     updateCtrfTestResultsFromTestResult host tc (Some r) this = Returns tt this' ->
     exists test,
       Reporter.tests this' = (Reporter.tests this ++ [test])%list /\ Q test) ->
  keeps (fun this => C (Reporter.reporterConfigOptions this)
                     /\ Forall Q (Reporter.tests this))
    (processSuite host suite).
Proof.
  intros Hrecord. apply processSuite_keeps. intros tc this [HC HQ].
  unfold processTest, bind.
  pose proof (updateCtrfTestResultsFromTestResult_shape host tc
                (index (TestCase.results tc)
                   (Z.of_nat (length (TestCase.results tc)) - 1)) this) as Hshape.
  destruct (index (TestCase.results tc) _) as [r|].
  - specialize (Hrecord tc r this).
    destruct (updateCtrfTestResultsFromTestResult host tc (Some r) this)
      as [[] this1|e this1].
    + destruct (Hrecord this1 HC eq_refl) as (test & Htests & HQtest).
      destruct Hshape as (test' & lines & ->).
      destruct (updateSummaryFromTestResult_shape r
                  (Reporter.with_tests (Reporter.tests this ++ [test'])
                     (Reporter.printAll lines this))) as (summary & -> & _).
      cbn [thisAfter]. split; [exact HC|].
      change (Forall Q (Reporter.tests this ++ [test'])%list).
      change ((Reporter.tests this ++ [test'])%list
              = (Reporter.tests this ++ [test])%list) in Htests.
      rewrite Htests. apply Forall_app. split; [exact HQ|]. now constructor.
    + destruct Hshape as (lines & ->). split; [exact HC | exact HQ].
  - cbn. split; [exact HC | exact HQ].
Qed.

Lemma run_records (host : Host.t) (C : ReporterConfigOptions.t -> Prop)
    (Q : CtrfTest.t -> Prop) (config : ReporterConfigOptions.t)
    (begin finish : Z) (suite : Suite.t) (this' : Reporter.t) :
  (forall tc r this this',
     C (Reporter.reporterConfigOptions this) ->
     updateCtrfTestResultsFromTestResult host tc (Some r) this = Returns tt this' ->
     exists test,
       Reporter.tests this' = (Reporter.tests this ++ [test])%list /\ Q test) ->
  C (Reporter.reporterConfigOptions (begun config begin suite)) ->
  run host config begin finish suite = Returns tt this' ->
  Forall Q (Reporter.tests this').
Proof.
  intros Hrecord HC Hrun. apply run_returns in Hrun. cbn zeta in Hrun.
  destruct Hrun as (walked & Hwalk & Hwrite).
  apply writeReportToFile_keeps_report in Hwrite.
  unfold Reporter.tests. rewrite Hwrite.
  pose proof (processSuite_keeps_records host C Q suite Hrecord
                (Reporter.with_summary
                   (<["stop" := finish]> (Reporter.summary (begun config begin suite)))
                   (begun config begin suite))) as Hkeeps.
  rewrite Hwalk in Hkeeps. cbn [thisAfter] in Hkeeps.
  apply Hkeeps. split; [exact HC | constructor].
Qed.

(** X15: in a run configured with [minimal: true], every record of the
    final report has the three required fields only: none of the thirteen
    optional fields is set. *)
Theorem minimal_run_has_bare_records (host : Host.t)
    (config : ReporterConfigOptions.t) (begin finish : Z) (suite : Suite.t)
    (this' : Reporter.t) :
  ReporterConfigOptions.minimal config = Some true ->
  run host config begin finish suite = Returns tt this' ->
  Forall bare (Reporter.tests this').
Proof.
  intros Hminimal.
  apply (run_records host
           (fun o => ReporterConfigOptions.minimal o = Some true) bare).
  - intros tc r this this1 HC.
    unfold updateCtrfTestResultsFromTestResult, bind, get. cbn beta.
    rewrite HC. unfold ret, modify. intros H. injection H as <-.
    eexists. split; [reflexivity|]. repeat split.
  - destruct config. cbn in *. now rewrite Hminimal.
Qed.

Lemma minimal_run_has_bare_records_witness :
  let config :=
    ReporterConfigOptions.mk None None (Some true) (Some true) None
      None None None None None None None in
  let suite :=
    Examples.rootWith [Examples.testCase [Examples.twoScreenshots]] in
  exists this',
    run Reference.host config 0 1 suite = Returns tt this'
    /\ length (Reporter.tests this') = 1%nat
    /\ Forall bare (Reporter.tests this').
Proof.
  intros config suite. eexists. split; [vm_compute; reflexivity|].
  split; [reflexivity|].
  apply (minimal_run_has_bare_records Reference.host config 0 1 suite).
  - reflexivity.
  - vm_compute. reflexivity.
Defined.

(** X16: unless a run is configured with [screenshot: true], no record of
    its final report has a screenshot, whatever the attempts attached. *)
Theorem no_screenshot_unless_enabled (host : Host.t)
    (config : ReporterConfigOptions.t) (begin finish : Z) (suite : Suite.t)
    (this' : Reporter.t) :
  ReporterConfigOptions.screenshot config <> Some true ->
  run host config begin finish suite = Returns tt this' ->
  Forall (fun test => CtrfTest.screenshot test = None) (Reporter.tests this').
Proof.
  intros Hscreenshot.
  apply (run_records host
           (fun o => ReporterConfigOptions.screenshot o <> Some true)
           (fun test => CtrfTest.screenshot test = None)).
  - intros tc r this this1 HC Hreturns.
    destruct (decide (minimalMode this = Some false)) as [Hfull|Hminimal].
    + pose proof (updateCtrfTestResultsFromTestResult_full host tc r this Hfull) as H.
      cbn zeta in H.
      destruct (browserValue (parsedMetadata host r)) as [browser|];
        [|rewrite H in Hreturns; discriminate Hreturns].
      destruct H as (test & Heq & _ & _ & _ & _ & _ & Hshot & _).
      rewrite Heq in Hreturns. injection Hreturns as <-.
      exists test. split; [reflexivity|]. rewrite Hshot.
      unfold screenshotMode.
      destruct (ReporterConfigOptions.screenshot (Reporter.reporterConfigOptions this))
        as [[|]|]; congruence.
    + destruct (updateCtrfTestResultsFromTestResult_minimal host tc r this Hminimal)
        as (test & Heq & _ & _ & _ & _ & _ & Hshot & _).
      rewrite Heq in Hreturns. injection Hreturns as <-.
      exists test. split; [reflexivity | exact Hshot].
  - destruct config as [? ? ? [[|]|] ? ? ? ? ? ? ? ?]; cbn in *; congruence.
Qed.

Lemma no_screenshot_unless_enabled_witness :
  let suite :=
    Examples.rootWith [Examples.testCase [Examples.twoScreenshots]] in
  exists this',
    run Reference.host ReporterConfigOptions.none 0 1 suite = Returns tt this'
    /\ length (Reporter.tests this') = 1%nat
    /\ Forall (fun test => CtrfTest.screenshot test = None) (Reporter.tests this').
Proof.
  intros suite. eexists. split; [vm_compute; reflexivity|].
  split; [reflexivity|].
  apply (no_screenshot_unless_enabled Reference.host ReporterConfigOptions.none
           0 1 suite).
  - discriminate.
  - vm_compute. reflexivity.
Defined.

Lemma processTest_describes (host : Host.t) (tc : TestCase.t)
    (this this' : Reporter.t) :
  processTest host tc this = Returns tt this' ->
  exists test,
    Reporter.tests this' = (Reporter.tests this ++ [test])%list /\ describes tc test.
Proof.
  unfold processTest, bind.
  destruct (index (TestCase.results tc) _) as [r|] eqn:Hindex; [|discriminate].
  apply index_last_inv in Hindex. destruct Hindex as (earlier & Hresults).
  destruct (updateCtrfTestResultsFromTestResult host tc (Some r) this)
    as [[] this1|e this1] eqn:Hrecord; [|discriminate].
  assert (Hdescribed : exists test,
    Reporter.tests this1 = (Reporter.tests this ++ [test])%list
    /\ CtrfTest.name test = TestCase.title tc
    /\ CtrfTest.status test = mapPlaywrightStatusToCtrf (TestResult.status r)
    /\ CtrfTest.duration test = TestResult.duration r).
  { destruct (decide (minimalMode this = Some false)) as [Hfull|Hminimal].
    - pose proof (updateCtrfTestResultsFromTestResult_full host tc r this Hfull) as H.
      cbn zeta in H.
      destruct (browserValue (parsedMetadata host r)) as [browser|];
        [|rewrite H in Hrecord; discriminate Hrecord].
      destruct H as (test & Heq & Hname & Hstatus & Hduration & _).
      rewrite Heq in Hrecord. injection Hrecord as <-.
      exists test. split; [reflexivity|]. auto.
    - destruct (updateCtrfTestResultsFromTestResult_minimal host tc r this Hminimal)
        as (test & Heq & Hname & Hstatus & Hduration & _).
      rewrite Heq in Hrecord. injection Hrecord as <-.
      exists test. split; [reflexivity|]. auto. }
  destruct Hdescribed as (test & Htests & Hname & Hstatus & Hduration).
  destruct (updateSummaryFromTestResult_shape r this1) as (summary & -> & _).
  intros H. injection H as <-. exists test. split; [exact Htests|].
  split; [exact Hname|]. exists earlier, r. auto.
Qed.

Lemma forOf_collects {A : Type} (body : A -> Method unit)
    (items : A -> list TestCase.t) (l : list A) :
  Forall (fun x => forall s s',
            body x s = Returns tt s' ->
            exists records,
              Reporter.tests s' = (Reporter.tests s ++ records)%list
              /\ Forall2 describes (items x) records) l ->
  forall this this',
    forOf body l this = Returns tt this' ->
    exists records,
      Reporter.tests this' = (Reporter.tests this ++ records)%list
      /\ Forall2 describes (flat_map items l) records.
Proof.
  induction 1 as [|x rest Hx _ IH]; intros this this' H; cbn [forOf] in H.
  - injection H as <-. exists []. split; [now rewrite app_nil_r | constructor].
  - unfold bind in H.
    destruct (body x this) as [[] this1|e this1] eqn:Hbody; [|discriminate H].
    destruct (Hx _ _ Hbody) as (first & Hfirst & Hdescribed).
    destruct (IH _ _ H) as (others & Hothers & Hdescribed').
    exists (first ++ others)%list. split.
    + rewrite Hothers, Hfirst. now rewrite app_assoc.
    + cbn [flat_map]. now apply Forall2_app.
Qed.

Lemma flat_map_singleton {A : Type} (l : list A) : flat_map (fun x => [x]) l = l.
Proof. induction l as [|x rest IH]; cbn; [reflexivity | now rewrite IH]. Qed.

(** X17: when the traversal returns, it has appended one record per
    visited test case, in the order of the visit (a suite's own test cases
    first, then its child suites, depth first); each record has the title
    of its test case and the normalized status and the duration of the last
    attempt of that test case. *)
Theorem processSuite_appends_records_in_order (host : Host.t) (suite : Suite.t)
    (this this' : Reporter.t) :
  processSuite host suite this = Returns tt this' ->
  exists records,
    Reporter.tests this' = (Reporter.tests this ++ records)%list
    /\ Forall2 describes (visitedTests suite) records.
Proof.
  revert this this'.
  induction suite as [title tests suites IH] using Suite_induction.
  intros this this' H.
  cbn [processSuite Suite.tests Suite.suites] in H.
  cbn [visitedTests Suite.tests Suite.suites].
  unfold bind in H.
  destruct (forOf (processTest host) tests this) as [[] this1|e this1] eqn:Htests;
    [|discriminate H].
  apply (forOf_collects _ (fun tc => [tc])) in Htests.
  - apply (forOf_collects _ visitedTests) in H; [|exact IH].
    destruct Htests as (own & Hown & Hdescribed).
    destruct H as (nested & Hnested & Hdescribed').
    rewrite flat_map_singleton in Hdescribed.
    exists (own ++ nested)%list. split.
    + rewrite Hnested, Hown. now rewrite app_assoc.
    + now apply Forall2_app.
  - apply Forall_forall. intros tc _ s s' Hs.
    destruct (processTest_describes host tc s s' Hs) as (test & Hs' & Hd).
    exists [test]. split; [exact Hs'|]. constructor; [exact Hd | constructor].
Qed.

Lemma processSuite_appends_records_in_order_witness :
  let this := begun ReporterConfigOptions.none 0 Examples.threeTests in
  exists this' first second third,
    processSuite Reference.host Examples.threeTests this = Returns tt this'
    /\ Reporter.tests this' = [first; second; third]
    /\ Forall2 describes (visitedTests Examples.threeTests) [first; second; third].
Proof.
  intros this.
  destruct (processSuite_appends_records_in_order Reference.host
              Examples.threeTests this
              (thisAfter (processSuite Reference.host Examples.threeTests this)))
    as (records & Htests & Hdescribed).
  - vm_compute. reflexivity.
  - eexists. do 3 eexists. split; [vm_compute; reflexivity|].
    split; [reflexivity|].
    vm_compute in Htests. cbn [app] in Htests. rewrite Htests. exact Hdescribed.
Defined.

(** ** What the buckets count *)

Lemma CtrfTestState_key_inj (a b : CtrfTestState) :
  CtrfTestState_key a = CtrfTestState_key b -> a = b.
Proof. destruct a, b; cbn; intros H; try reflexivity; discriminate H. Qed.

Lemma CtrfTestState_key_not_tests (state : CtrfTestState) :
  "tests" <> CtrfTestState_key state.
Proof. destruct state; discriminate. Qed.

Lemma processTest_counts_bucket (host : Host.t) (tc : TestCase.t)
    (this this' : Reporter.t) :
  hasBuckets (Reporter.summary this) ->
  processTest host tc this = Returns tt this' ->
  hasBuckets (Reporter.summary this')
  /\ forall state,
       counter (Reporter.summary this') (CtrfTestState_key state)
       = counter (Reporter.summary this) (CtrfTestState_key state)
         + countsAs state tc.
Proof.
  intros Hbuckets. unfold processTest, bind.
  destruct (index (TestCase.results tc) _) as [r|] eqn:Hindex; [|discriminate].
  apply index_last_inv in Hindex. destruct Hindex as (earlier & Hresults).
  destruct (updateCtrfTestResultsFromTestResult host tc (Some r) this)
    as [[] this1|e this1] eqn:Hrecord; [|discriminate].
  apply updateCtrfTestResultsFromTestResult_pushes in Hrecord.
  destruct Hrecord as (Hsummary & _).
  unfold updateSummaryFromTestResult, bind, modify.
  change (Reporter.summary
            (Reporter.with_summary (increment "tests" (Reporter.summary this1)) this1))
    with (increment "tests" (Reporter.summary this1)).
  rewrite Hsummary.
  set (bucket := mapPlaywrightStatusToCtrf (TestResult.status r)).
  assert (Hlast : lastState tc = Some bucket).
  { unfold lastState. rewrite Hresults, last_snoc. reflexivity. }
  destruct (Hbuckets bucket) as (n & Hn).
  assert (Hfound : increment "tests" (Reporter.summary this)
                   !! CtrfTestState_key bucket = Some n).
  { unfold increment. rewrite lookup_insert_ne; [exact Hn|].
    apply CtrfTestState_key_not_tests. }
  rewrite Hfound. intros H. injection H as <-.
  change (Reporter.summary (Reporter.with_summary ?s _)) with s.
  split.
  - intros state. unfold increment.
    destruct (decide (CtrfTestState_key bucket = CtrfTestState_key state)) as [->|Hne].
    + rewrite lookup_insert_eq. eauto.
    + rewrite lookup_insert_ne by exact Hne.
      rewrite lookup_insert_ne by apply CtrfTestState_key_not_tests.
      apply Hbuckets.
  - intros state. unfold countsAs, CtrfTestState_eqb. rewrite Hlast.
    rewrite !counter_increment.
    destruct (String.eqb_spec (CtrfTestState_key bucket) (CtrfTestState_key state))
      as [Heq|Hne].
    + rewrite decide_True by exact Heq.
      rewrite decide_False by apply CtrfTestState_key_not_tests.
      now rewrite Heq.
    + rewrite decide_False by exact Hne.
      rewrite decide_False by apply CtrfTestState_key_not_tests. lia.
Qed.

Lemma forOf_accumulates_under {A : Type} (body : A -> Method unit)
    (I : Reporter.t -> Prop) (measure : Reporter.t -> Z) (weight : A -> Z)
    (l : list A) :
  Forall (fun x => forall s s',
            I s -> body x s = Returns tt s' ->
            I s' /\ measure s' = measure s + weight x) l ->
  forall this this',
    I this -> forOf body l this = Returns tt this' ->
    I this' /\ measure this' = measure this + total 0 (map weight l).
Proof.
  induction 1 as [|x rest Hx _ IH]; intros this this' HI H; cbn [forOf] in H.
  - injection H as <-. unfold total. cbn [map fold_right]. split; [exact HI | lia].
  - unfold bind in H.
    destruct (body x this) as [[] this1|e this1] eqn:Hbody; [|discriminate H].
    destruct (Hx _ _ HI Hbody) as [HI1 H1].
    destruct (IH _ _ HI1 H) as [HI' H'].
    split; [exact HI'|]. rewrite H', H1. unfold total. cbn [map fold_right]. lia.
Qed.

Lemma total_app (a b : list Z) : total 0 (a ++ b) = total 0 a + total 0 b.
Proof.
  unfold total. induction a as [|x a IH]; cbn [app fold_right]; lia.
Qed.

Lemma total_flat_map {A B : Type} (weight : B -> Z) (f : A -> list B) (l : list A) :
  total 0 (map (fun x => total 0 (map weight (f x))) l)
  = total 0 (map weight (flat_map f l)).
Proof.
  induction l as [|x rest IH]; cbn [map flat_map].
  - reflexivity.
  - rewrite map_app, total_app, <- IH. unfold total. cbn [fold_right]. reflexivity.
Qed.

Lemma processSuite_counts_buckets (host : Host.t) (suite : Suite.t)
    (state : CtrfTestState) :
  forall this this',
    hasBuckets (Reporter.summary this) ->
    processSuite host suite this = Returns tt this' ->
    hasBuckets (Reporter.summary this')
    /\ counter (Reporter.summary this') (CtrfTestState_key state)
       = counter (Reporter.summary this) (CtrfTestState_key state)
         + total 0 (map (countsAs state) (visitedTests suite)).
Proof.
  induction suite as [title tests suites IH] using Suite_induction.
  intros this this' Hbuckets H.
  cbn [processSuite Suite.tests Suite.suites] in H.
  cbn [visitedTests Suite.tests Suite.suites].
  unfold bind in H.
  destruct (forOf (processTest host) tests this) as [[] this1|e this1] eqn:Htests;
    [|discriminate H].
  apply (forOf_accumulates_under _ (fun s => hasBuckets (Reporter.summary s))
           (fun s => counter (Reporter.summary s) (CtrfTestState_key state))
           (countsAs state)) in Htests; [|  |exact Hbuckets].
  - destruct Htests as [Hbuckets1 Hown].
    apply (forOf_accumulates_under _ (fun s => hasBuckets (Reporter.summary s))
             (fun s => counter (Reporter.summary s) (CtrfTestState_key state))
             (fun child => total 0 (map (countsAs state) (visitedTests child))))
      in H; [|exact IH|exact Hbuckets1].
    destruct H as [Hbuckets' Hnested]. split; [exact Hbuckets'|].
    rewrite Hnested, Hown, total_flat_map, map_app, total_app. lia.
  - apply Forall_forall. intros tc _ s s' Hs Hreturns.
    destruct (processTest_counts_bucket host tc s s' Hs Hreturns) as [Hs' Hcount].
    split; [exact Hs' | apply Hcount].
Qed.

(** X18: after a returning run each of the five buckets of the summary
    holds the number of visited test cases whose last attempt has that
    normalized status, and [tests] holds the number of visited test cases;
    the fall-back to [other] for a missing bucket is never taken. *)
Theorem run_buckets_count_last_attempts (host : Host.t)
    (config : ReporterConfigOptions.t) (begin finish : Z) (suite : Suite.t)
    (this' : Reporter.t) :
  run host config begin finish suite = Returns tt this' ->
  (forall state,
     Reporter.summary this' !! CtrfTestState_key state
     = Some (total 0 (map (countsAs state) (visitedTests suite))))
  /\ counter (Reporter.summary this') "tests"
     = Z.of_nat (length (visitedTests suite)).
Proof.
  intros Hrun. apply run_returns in Hrun. cbn zeta in Hrun.
  destruct Hrun as (walked & Hwalk & Hwrite).
  apply writeReportToFile_keeps_report in Hwrite.
  unfold Reporter.summary at 1 2. rewrite Hwrite.
  cbn [Reporter.with_summary Reporter.with_ctrfReport Reporter.ctrfReport
       CtrfReport.summary].
  set (stopped := Reporter.with_summary _ (begun config begin suite)) in Hwalk.
  assert (Hzero : forall key, isCounterName key = true ->
                    Reporter.summary stopped !! key = Some 0).
  { intros key Hkey. unfold stopped. cbn.
    unfold isCounterName in Hkey.
    repeat (apply orb_true_iff in Hkey; destruct Hkey as [Hkey|Hkey]);
      apply String.eqb_eq in Hkey; subst key;
      repeat (rewrite lookup_insert_ne by discriminate);
      apply lookup_insert_eq. }
  assert (Hbuckets : hasBuckets (Reporter.summary stopped)).
  { intros state. rewrite Hzero; [eauto|]. now destruct state. }
  split.
  - intros state.
    destruct (processSuite_counts_buckets host suite state stopped walked
                Hbuckets Hwalk) as [Hbuckets' Hcount].
    rewrite lookup_insert_ne by (destruct state; discriminate).
    destruct (Hbuckets' state) as (n & Hn).
    unfold counter in Hcount. rewrite Hn, Hzero in Hcount by now destruct state.
    cbn [default] in Hcount. unfold id in Hcount. rewrite Hn. f_equal. lia.
  - destruct (processSuite_counts_every_test host suite stopped walked Hwalk)
      as [Hcount _].
    assert (Hstart : counter (Reporter.summary stopped) "tests" = 0).
    { unfold counter. now rewrite (Hzero "tests" eq_refl). }
    rewrite counter_insert, decide_False by discriminate.
    rewrite Hcount, Hstart. lia.
Qed.

Lemma run_buckets_count_last_attempts_witness :
  exists this',
    run Reference.host ReporterConfigOptions.none 0 1 Examples.threeTests
    = Returns tt this'
    /\ Reporter.summary this' !! "passed" = Some 2
    /\ Reporter.summary this' !! "failed" = Some 1
    /\ Reporter.summary this' !! "other" = Some 0.
Proof.
  eexists. split; [vm_compute; reflexivity|].
  destruct (run_buckets_count_last_attempts Reference.host
              ReporterConfigOptions.none 0 1 Examples.threeTests
              (thisAfter (run Reference.host ReporterConfigOptions.none 0 1
                            Examples.threeTests)))
    as [Hbuckets _].
  - vm_compute. reflexivity.
  - split; [exact (Hbuckets passed)|].
    split; [exact (Hbuckets failed) | exact (Hbuckets other)].
Defined.

(** ** Attachments: which one is read *)

Lemma extractScreenshotBase64_first_witness :
  extractScreenshotBase64
    (TestResult.mk "passed" 10 0 0
       [ Attachment.mk "trace" "application/zip" (Some "zip");
         Attachment.mk "screenshot" "image/jpeg" (Some "Man");
         Attachment.mk "screenshot" "image/png" (Some "later") ] None)
  = Some "TWFu".
Proof.
  apply (extractScreenshotBase64_first _
           [Attachment.mk "trace" "application/zip" (Some "zip")]
           [Attachment.mk "screenshot" "image/png" (Some "later")]
           (Attachment.mk "screenshot" "image/jpeg" (Some "Man"))).
  - reflexivity.
  - repeat constructor.
  - reflexivity.
Defined.

(** X20: when no attachment of the attempt is named [screenshot] with
    content type [image/jpeg] or [image/png] (another name, another image
    type), [extractScreenshotBase64] returns [undefined]. *)
Theorem extractScreenshotBase64_none (r : TestResult.t) :
  Forall (fun a => Attachment.name a <> "screenshot"
                   \/ (Attachment.contentType a <> "image/jpeg"
                       /\ Attachment.contentType a <> "image/png"))
    (TestResult.attachments r) ->
  extractScreenshotBase64 r = None.
Proof.
  intros Hnone. unfold extractScreenshotBase64.
  assert (Hfind : List.find isScreenshot (TestResult.attachments r) = None).
  { induction Hnone as [|a rest Ha _ IH]; cbn [List.find]; [reflexivity|].
    assert (Hno : isScreenshot a = false).
    { unfold isScreenshot.
      destruct (String.eqb_spec (Attachment.name a) "screenshot") as [Hname|_];
        [|reflexivity].
      destruct Ha as [Ha|[Hjpeg Hpng]]; [contradiction|].
      apply String.eqb_neq in Hjpeg, Hpng. now rewrite Hjpeg, Hpng. }
    now rewrite Hno. }
  now rewrite Hfind.
Qed.

Lemma extractScreenshotBase64_none_witness :
  extractScreenshotBase64
    (TestResult.mk "failed" 10 0 0
       [ Attachment.mk "screenshot" "image/webp" (Some "webp");
         Attachment.mk "video" "image/png" (Some "png") ] None)
  = None.
Proof.
  apply extractScreenshotBase64_none. cbn [TestResult.attachments].
  constructor; [right; split; discriminate|].
  constructor; [left; discriminate | constructor].
Defined.

(** X21: [extractMetadata] reads the first attachment named
    [metadata.json] and no other: with that attachment alone, the attempt
    gives the same outcome, whatever its other attachments are. *)
Theorem extractMetadata_first_attachment_only (host : Host.t)
    (status : string) (duration startTime retry : Z)
    (before after : list Attachment.t) (metadata : Attachment.t)
    (error : option TestError.t) (this : Reporter.t) :
  Forall (fun a => Attachment.name a <> "metadata.json") before ->
  Attachment.name metadata = "metadata.json" ->
  extractMetadata host
    (TestResult.mk status duration startTime retry
       (before ++ metadata :: after) error) this
  = extractMetadata host
      (TestResult.mk status duration startTime retry [metadata] error) this.
Proof.
  intros Hbefore Hname. unfold extractMetadata. cbn [TestResult.attachments].
  assert (Hmetadata : isMetadata metadata = true).
  { unfold isMetadata. now rewrite Hname. }
  assert (Hfind : List.find isMetadata (before ++ metadata :: after) = Some metadata).
  { induction Hbefore as [|a rest Ha _ IH]; cbn [app List.find].
    - now rewrite Hmetadata.
    - unfold isMetadata at 1. apply String.eqb_neq in Ha. now rewrite Ha. }
  rewrite Hfind. cbn [List.find]. now rewrite Hmetadata.
Qed.

Lemma extractMetadata_first_attachment_only_witness :
  extractMetadata Reference.host
    (TestResult.mk "passed" 10 0 0
       [ Attachment.mk "screenshot" "image/png" (Some "png");
         Examples.metadataAttachment Examples.malformed;
         Examples.metadataAttachment Examples.nameAndVersion ] None)
    (constructor ReporterConfigOptions.none)
  = extractMetadata Reference.host
      (TestResult.mk "passed" 10 0 0
         [Examples.metadataAttachment Examples.malformed] None)
      (constructor ReporterConfigOptions.none).
Proof.
  apply (extractMetadata_first_attachment_only Reference.host "passed" 10 0 0
           [Attachment.mk "screenshot" "image/png" (Some "png")]
           [Examples.metadataAttachment Examples.nameAndVersion]
           (Examples.metadataAttachment Examples.malformed)).
  - constructor; [discriminate | constructor].
  - reflexivity.
Defined.

(** ** Suite paths of tests outside any titled suite *)

Lemma join_not_empty (sep first : string) (rest : list string) :
  first <> "" -> join sep (first :: rest) <> "".
Proof.
  intros Hfirst. cbn [join]. destruct rest as [|second rest]; [exact Hfirst|].
  destruct first as [|c first]; [contradiction|].
  rewrite append_cons. discriminate.
Qed.

Lemma Forall_rev_both {A : Type} (P : A -> Prop) (l : list A) :
  Forall P (rev l) <-> Forall P l.
Proof.
  split; intros H.
  - rewrite <- (rev_involutive l). now apply Forall_rev.
  - now apply Forall_rev.
Qed.

(** X22: the suite path of a test case is the empty string exactly when
    every suite above it, up to the root, has an empty title. *)
Theorem buildSuitePath_empty_iff_untitled (test : TestCase.t) :
  buildSuitePath test = ""
  <-> Forall (fun title => title = "") (titlesToRoot (TestCase.parent test)).
Proof.
  unfold buildSuitePath. rewrite buildSuitePath_loop_titles, app_nil_r.
  rewrite <- (Forall_rev_both (fun title => title = "")).
  induction (rev (titlesToRoot (TestCase.parent test))) as [|title rest IH].
  - cbn. split; [constructor | reflexivity].
  - cbn [List.filter]. unfold nonEmpty at 1.
    destruct (String.eqb_spec title "") as [->|Hne]; cbn [negb].
    + rewrite IH. split; [now constructor | now inversion 1].
    + split.
      * intros H. now apply join_not_empty in H.
      * inversion 1. contradiction.
Qed.

Lemma processSuite_returns_with_attempts_witness :
  exists this',
    processSuite Reference.host Examples.threeTests
      (begun ReporterConfigOptions.none 0 Examples.threeTests)
    = Returns tt this'.
Proof.
  apply (processSuite_returns_with_attempts Reference.host Examples.threeTests).
  assert (Hconvertible : forall (before : list TestResult.t) (last : TestResult.t),
    browserValue (parsedMetadata Reference.host last) <> None ->
    (before ++ [last])%list <> []
    /\ convertible Reference.host (Examples.testCase (before ++ [last]))).
  { intros before last Hlast. split; [now destruct before|].
    intros earlier r Hresults. cbn [Examples.testCase TestCase.results] in Hresults.
    apply app_inj_tail in Hresults. destruct Hresults as [_ <-]. exact Hlast. }
  cbn [Examples.threeTests Examples.rootWith visitedTests Suite.tests Suite.suites
       flat_map app].
  constructor; [apply (Hconvertible [] Examples.passedAttempt); vm_compute; discriminate|].
  constructor; [apply (Hconvertible [] Examples.failedAttempt); vm_compute; discriminate|].
  constructor;
    [apply (Hconvertible [Examples.failedAttempt] Examples.passedOnRetry);
     vm_compute; discriminate|].
  constructor.
Defined.
